(** * Dial-AI: the call-initiation service of [main.py]

    A shallow embedding of the number normaliser, the command interpreter,
    the call dispatcher, the call-log store and the error sanitiser, and the
    properties of them that the specification states.

    Python [str] values are lists of characters.  A character is an [ascii],
    read as the code point of the same number (U+0000 to U+00FF), so the
    development speaks about text over that range.  The character classes of
    [re] and of [str] are written out for that range below. *)

From Stdlib Require Import Ascii String List Arith Bool Lia.
From stdpp Require Import base option list gmap strings.

Local Open Scope list_scope.
Local Open Scope nat_scope.

(** ** Python strings and the [re] calls of [main.py] *)

Module Py.

Abbreviation str := (list ascii).

(** A string literal of the source. *)
Definition py (s : string) : str := list_ascii_of_string s.

Definition code (c : ascii) : nat := nat_of_ascii c.

Definition in_range (lo hi : nat) (c : ascii) : bool :=
  (lo <=? code c) && (code c <=? hi).

Definition is_char (n : nat) (c : ascii) : bool := code c =? n.

Definition LF : ascii := ascii_of_nat 10.
Definition ESC : ascii := ascii_of_nat 27.

(** [\d] of a [str] pattern: the decimal digits (category Nd). *)
Definition is_decimal (c : ascii) : bool := in_range 48 57 c.

(** [\s] of a [str] pattern and [str.isspace]: TAB LF VT FF CR, the four
    separators FS GS RS US, SPACE, NEL and the no-break space. *)
Definition is_space (c : ascii) : bool :=
  in_range 9 13 c || in_range 28 32 c || is_char 133 c || is_char 160 c.

(** [str.isdigit]: the decimal digits and the superscripts two, three, one. *)
Definition is_digit (c : ascii) : bool :=
  is_decimal c || is_char 178 c || is_char 179 c || is_char 185 c.

(** [str.lower] on one character: A-Z, and the capital letters of
    U+00C0..U+00DE without the multiplication sign. *)
Definition lower_char (c : ascii) : ascii :=
  if in_range 65 90 c || (in_range 192 222 c && negb (is_char 215 c))
  then ascii_of_nat (code c + 32) else c.

Definition lower (s : str) : str := map lower_char s.

Fixpoint take_while (p : ascii -> bool) (s : str) : str :=
  match s with
  | c :: t => if p c then c :: take_while p t else []
  | [] => []
  end.

Fixpoint drop_while (p : ascii -> bool) (s : str) : str :=
  match s with
  | c :: t => if p c then drop_while p t else s
  | [] => []
  end.

(** [s.strip()] *)
Definition lstrip (s : str) : str := drop_while is_space s.
Definition rstrip (s : str) : str := rev (drop_while is_space (rev s)).
Definition strip (s : str) : str := rstrip (lstrip s).

(** [s.startswith(p)] *)
Fixpoint startswith (p s : str) : bool :=
  match p, s with
  | [], _ => true
  | a :: p', b :: s' => if ascii_dec a b then startswith p' s' else false
  | _ :: _, [] => false
  end.

(** [p in s] for a non-empty [p] *)
Fixpoint contains (p s : str) : bool :=
  startswith p s ||
  match s with
  | [] => false
  | _ :: t => contains p t
  end.

(** [s[-n:]] *)
Definition last_n (n : nat) (s : str) : str := drop (length s - n) s.

(** A pattern is given by its matcher: on the text that starts at a
    position, the length of the match that [re] finds there, if any.  None of
    the patterns of [main.py] looks behind the position, and none matches the
    empty string. *)
Definition matcher := str -> option nat.

(** [re.sub(pat, repl, s)]: the matches are replaced from left to right;
    [skip] counts the characters of the current match still to be passed. *)
Fixpoint re_sub_from (m : matcher) (repl : str) (skip : nat) (s : str) : str :=
  match s with
  | [] => []
  | c :: t =>
      match skip with
      | S k => re_sub_from m repl k t
      | O =>
          match m s with
          | Some (S k) => repl ++ re_sub_from m repl k t
          | _ => c :: re_sub_from m repl 0 t
          end
      end
  end.

Definition re_sub (m : matcher) (repl s : str) : str := re_sub_from m repl 0 s.

(** [re.split(pat, s)]: the pieces between the matches, the empty pieces at
    both ends included; [cur] holds the current piece, reversed. *)
Fixpoint re_split_from (m : matcher) (skip : nat) (cur : str) (s : str) : list str :=
  match s with
  | [] => [rev cur]
  | c :: t =>
      match skip with
      | S k => re_split_from m k cur t
      | O =>
          match m s with
          | Some (S k) => rev cur :: re_split_from m k [] t
          | _ => re_split_from m 0 (c :: cur) t
          end
      end
  end.

Definition re_split (m : matcher) (s : str) : list str := re_split_from m 0 [] s.

(** [re.findall(pat, s)] for a pattern without groups. *)
Fixpoint re_findall_from (m : matcher) (skip : nat) (s : str) : list str :=
  match s with
  | [] => []
  | _ :: t =>
      match skip with
      | S k => re_findall_from m k t
      | O =>
          match m s with
          | Some (S k) => take (S k) s :: re_findall_from m k t
          | _ => re_findall_from m 0 t
          end
      end
  end.

Definition re_findall (m : matcher) (s : str) : list str := re_findall_from m 0 s.

(** [re.search(pat, s)]: the text of the leftmost match, [m.group(0)]. *)
Fixpoint re_search (m : matcher) (s : str) : option str :=
  match m s with
  | Some n => Some (take n s)
  | None =>
      match s with
      | [] => None
      | _ :: t => re_search m t
      end
  end.

(** A literal as a pattern; [s.replace(old, new)] and [s.split(sep)]. *)
Definition literal (p : str) : matcher :=
  fun s => if startswith p s then Some (length p) else None.

Definition replace (old new s : str) : str := re_sub (literal old) new s.

Definition split (sep s : str) : list str := re_split (literal sep) s.

(** The length of the longest run of characters of a class at the start. *)
Definition run (p : ascii -> bool) (s : str) : nat := length (take_while p s).

(** [$] without [re.MULTILINE]: at the end, or before a last line feed. *)
Definition at_dollar (s : str) : bool :=
  match s with
  | [] => true
  | [c] => is_char 10 c
  | _ => false
  end.

(** What a Python call gives: a value, or an exception, carried as the text
    [str(e)] that the handlers of [main.py] read. *)
Inductive outcome (A : Type) : Type :=
  | Ok (a : A)
  | Raised (e : str).
Arguments Ok {A} a.
Arguments Raised {A} e.

Global Instance outcome_ret : MRet outcome := fun A a => Ok a.

Global Instance outcome_bind : MBind outcome :=
  fun A B f m => match m with Ok a => f a | Raised e => Raised e end.

(** [try: body / except Exception as e: handler] *)
Definition try_except {A : Type} (body : outcome A) (handler : str -> outcome A) : outcome A :=
  match body with
  | Ok a => Ok a
  | Raised e => handler e
  end.

End Py.

Import Py.

(** ** The patterns of [main.py] *)

(** [\x1B(?:[@-Z\\-_]|\[[0-?]*[ -/]*[@-~])].  The three classes after the
    bracket are disjoint, so the greedy choice is the only one. *)
Definition pat_ansi_escape : matcher :=
  fun s =>
    match s with
    | e :: c :: t =>
        if negb (is_char 27 e) then None
        else if in_range 64 90 c || in_range 92 95 c then Some 2
        else if is_char 91 c then
          let params := run (in_range 48 63) t in
          let inter := run (in_range 32 47) (drop params t) in
          match drop (params + inter) t with
          | f :: _ => if in_range 64 126 f then Some (2 + params + inter + 1) else None
          | [] => None
          end
        else None
    | _ => None
    end.

(** [\[[0-9;]*m] *)
Definition pat_colour_code : matcher :=
  fun s =>
    match s with
    | b :: t =>
        if is_char 91 b then
          let n := run (fun c => in_range 48 57 c || is_char 59 c) t in
          match drop n t with
          | m :: _ => if is_char 109 m then Some (1 + n + 1) else None
          | [] => None
          end
        else None
    | [] => None
    end.

(** [More information may be available here:.*$] with [re.DOTALL] *)
Definition pat_more_information : matcher :=
  fun s =>
    if startswith (py "More information may be available here:") s
    then Some (length s) else None.

(** [https?://[^\s]+$] *)
Definition pat_trailing_url : matcher :=
  fun s =>
    if startswith (py "http") s then
      let s1 := drop 4 s in
      let opt := if startswith (py "s") s1 then 1 else 0 in
      let s2 := drop opt s1 in
      if startswith (py "://") s2 then
        let s3 := drop 3 s2 in
        let n := run (fun c => negb (is_space c)) s3 in
        if (1 <=? n) && at_dollar (drop n s3) then Some (4 + opt + 3 + n) else None
      else None
    else None.

(** The lazy [.*?] before [(?=More information may be available|$)]: the
    number of characters up to the first position where the look-ahead
    holds. *)
Fixpoint lazy_until_footer (s : str) : nat :=
  if startswith (py "More information may be available") s || at_dollar s then 0
  else match s with
       | [] => 0
       | _ :: t => S (lazy_until_footer t)
       end.

(** [Unable to create record:.*?(?=More information may be available|$)]
    with [re.DOTALL] *)
Definition pat_unable_to_create : matcher :=
  fun s =>
    let p := py "Unable to create record:" in
    if startswith p s
    then Some (length p + lazy_until_footer (drop (length p) s)) else None.

(** [\s+] *)
Definition pat_whitespace : matcher :=
  fun s => match run is_space s with
           | O => None
           | n => Some n
           end.

(** [[^\d+]] *)
Definition pat_not_digit_plus : matcher :=
  fun s => match s with
           | c :: _ => if is_decimal c || is_char 43 c then None else Some 1
           | [] => None
           end.

(** [[^\d]] *)
Definition pat_not_digit : matcher :=
  fun s => match s with
           | c :: _ => if is_decimal c then None else Some 1
           | [] => None
           end.

(** [[,\n\r]+] *)
Definition is_separator (c : ascii) : bool :=
  is_char 44 c || is_char 10 c || is_char 13 c.

Definition pat_separators : matcher :=
  fun s => match run is_separator s with
           | O => None
           | n => Some n
           end.

(** [\d{10,}] *)
Definition pat_digits_10 : matcher :=
  fun s => let n := run is_decimal s in if 10 <=? n then Some n else None.

(** [\+?\d{10,}] *)
Definition pat_phone : matcher :=
  fun s =>
    match s with
    | c :: t =>
        if is_char 43 c then
          let n := run is_decimal t in if 10 <=? n then Some (1 + n) else None
        else pat_digits_10 s
    | [] => None
    end.

(** [\{[^}]+\}] *)
Definition pat_braces : matcher :=
  fun s =>
    match s with
    | o :: t =>
        if is_char 123 o then
          let n := run (fun c => negb (is_char 125 c)) t in
          match drop n t with
          | c :: _ => if (1 <=? n) && is_char 125 c then Some (1 + n + 1) else None
          | [] => None
          end
        else None
    | [] => None
    end.

(** ** Data *)

(** The dictionary that [initiate_calls] builds for one call and hands to
    [save_call_log]; a field of type [option] holds [None] when it is [None]
    in the dictionary. *)
Module CallAttempt.
Record t : Type := mk {
  number : str;
  status : str;
  success : bool;
  timestamp : str;
  call_sid : option str;
  error : option str
}.
End CallAttempt.

(** The dictionary that [make_twilio_call] returns; a field is [None] when
    the key is absent. *)
Module CallResult.
Record t : Type := mk {
  success : bool;
  call_sid : option str;
  status : option str;
  number : option str;
  error : option str
}.
End CallResult.

(** A decoded JSON value; a [dict] keeps its keys in insertion order. *)
#[warning="-register-all"]
Inductive jval : Type :=
  | JNull
  | JBool (b : bool)
  | JInt (n : Z)
  | JStr (s : str)
  | JList (l : list jval)
  | JDict (d : list (str * jval)).

Abbreviation dict := (list (str * jval)).

(** [calls.json] as a log: no file, a file that [json.load] rejects, or the
    array of entries that it decodes to.  [json.dump] followed by
    [json.load] gives back the list written.  These are the states in which
    [save_call_log] and [cleanup_all_logs] leave the file.  A file may hold
    any other JSON value as well: [Disk.file] below has every content, with
    [load_call_logs], [save_call_log] and the handler of [POST /call] on it,
    and [Disk.of_log] places the states of a log among them. *)
Inductive calls_json : Type :=
  | no_file
  | not_json
  | stored (logs : list CallAttempt.t).

(** The Twilio client: [calls.create(to, from_, twiml)] gives the pair of
    [call.sid] and [call.status], [outgoing_caller_ids.list()] the
    [phone_number] of every caller id. *)
Record Client : Type := {
  calls_create : str -> option str -> str -> outcome (str * str);
  outgoing_caller_ids_list : outcome (list str)
}.

(** The language-model handle chosen at start-up: [generate_content(p).text]
    of Gemini, or [create(system, user).choices[0].message.content] of
    OpenAI. *)
Inductive ai_backend : Type :=
  | gemini (generate_content : str -> outcome str)
  | openai (chat_completions_create : str -> str -> outcome str).

(** The module-level state and the library calls around [main.py]. *)
Record environment : Type := {
  twilio_client : option Client;
  TWILIO_PHONE_NUMBER : option str;
  ai_provider : option ai_backend;
  getenv : str -> option str;
  (** [str(response)] after [response.say(message, voice, language)] *)
  say_twiml : str -> str -> str -> str;
  (** [json.loads] on a text that starts with a brace *)
  json_loads : str -> outcome dict;
  (** [datetime.now().isoformat()] at the n-th reading of the clock *)
  now_isoformat : nat -> str
}.

(** What a request changes: the log file, the requests sent to the
    provider (the [to] of each), and the readings of the clock. *)
Record world : Type := {
  disk : calls_json;
  sent : list str;
  clock : nat
}.

(** ** [strip_ansi_codes] *)

Definition strip_ansi_codes (text : str) : str := re_sub pat_ansi_escape [] text.

(** ** Call Log Store: [load_call_logs], [save_call_log] *)

Definition load_call_logs (f : calls_json) : list CallAttempt.t :=
  match f with
  | stored logs => logs
  | not_json => []
  | no_file => []
  end.

Definition save_call_log (call_data : CallAttempt.t) (f : calls_json) : calls_json :=
  let logs := load_call_logs f in
  stored (logs ++ [call_data]).

(** ** Error Sanitizer: [clean_error_message] *)

Definition twilio_preamble : str := py "Twilio returned the following information:".

Definition clean_error_message (error_text : str) : str :=
  match error_text with
  | [] => error_text
  | _ :: _ =>
      let cleaned := strip_ansi_codes error_text in
      let core :=
        if contains twilio_preamble cleaned then
          match split twilio_preamble cleaned with
          | _ :: part1 :: _ =>
              let error_msg := strip part1 in
              let error_msg := re_sub pat_colour_code [] error_msg in
              let error_msg := re_sub pat_more_information [] error_msg in
              let error_msg := strip error_msg in
              let error_msg := strip (re_sub pat_trailing_url [] error_msg) in
              Some error_msg
          | _ => None
          end
        else None in
      match core with
      | Some error_msg => error_msg
      | None =>
          if contains (py "HTTP Error") cleaned
             && contains (py "Unable to create record:") cleaned then
            match re_search pat_unable_to_create cleaned with
            | Some group0 => re_sub pat_whitespace (py " ") (strip group0)
            | None => cleaned
            end
          else cleaned
      end
  end.

(** ** [cleanup_all_logs] *)

(** One round of [for log in logs]: the error is rewritten when it is
    neither [None] nor empty. *)
Definition cleanup_log (log : CallAttempt.t) : CallAttempt.t :=
  match CallAttempt.error log with
  | Some (c :: t) =>
      CallAttempt.mk (CallAttempt.number log) (CallAttempt.status log)
        (CallAttempt.success log) (CallAttempt.timestamp log)
        (CallAttempt.call_sid log) (Some (clean_error_message (c :: t)))
  | _ => log
  end.

(** The file after the pass, and the count returned. *)
Definition cleanup_all_logs (f : calls_json) : calls_json * nat :=
  let logs := load_call_logs f in
  let cleaned_logs := map cleanup_log logs in
  (stored cleaned_logs, length cleaned_logs).

(** ** Number Normalizer: [get_verified_numbers], [parse_phone_numbers] *)

Definition get_verified_numbers (env : environment) : list str :=
  match twilio_client env with
  | Some client =>
      match outgoing_caller_ids_list client with
      | Ok verified_list => verified_list
      | Raised _ => []
      end
  | None => []
  end.

(** [v.replace(' ', '').replace('-', '')], the value kept in the index. *)
Definition stored_format (v : str) : str := replace (py "-") [] (replace (py " ") [] v).

(** One round of [for v in verified_numbers]. *)
Definition index_verified (verified_digits : gmap str str) (v : str) : gmap str str :=
  let digits := re_sub pat_not_digit_plus [] v in
  if 10 <=? length digits then
    let last_10 := last_n 10 digits in
    <[last_10 := stored_format v]> verified_digits
  else verified_digits.

Definition build_verified_digits (verified_numbers : list str) : gmap str str :=
  foldl index_verified ∅ verified_numbers.

(** The block under [if not num_clean.startswith('+')]. *)
Definition add_country_code (verified_digits : gmap str str) (num_clean : str) : str :=
  if length num_clean =? 10 then
    match verified_digits !! num_clean with
    | Some v => v
    | None => py "+1" ++ num_clean
    end
  else if (length num_clean =? 11) && startswith (py "1") num_clean then
    py "+" ++ num_clean
  else if (length num_clean =? 10) && startswith (py "9") num_clean then
    match verified_digits !! num_clean with
    | Some v => v
    | None => py "+91" ++ num_clean
    end
  else py "+" ++ num_clean.

(** One round of [for num in numbers]: [None] when the round appends
    nothing ([continue], or the length check fails). *)
Definition normalize_candidate (verified_digits : gmap str str) (num : str) : option str :=
  let num_clean := re_sub pat_not_digit_plus [] (strip num) in
  match num_clean with
  | [] => None
  | _ :: _ =>
      let num_clean :=
        if negb (startswith (py "+") num_clean)
        then add_country_code verified_digits num_clean
        else num_clean in
      let digits_only := re_sub pat_not_digit [] num_clean in
      if 10 <=? length digits_only then Some num_clean else None
  end.

(** The body of [parse_phone_numbers] below the call of
    [get_verified_numbers]. *)
Definition normalize_numbers (verified_numbers : list str) (text : str) : list str :=
  let verified_digits := build_verified_digits verified_numbers in
  let numbers := re_split pat_separators text in
  omap (normalize_candidate verified_digits) numbers.

Definition parse_phone_numbers (env : environment) (text : str) : list str :=
  normalize_numbers (get_verified_numbers env) text.

(** ** Command Interpreter: [parse_ai_command] *)

Definition DQ : ascii := ascii_of_nat 34.

Definition quoted (s : str) : str := DQ :: s ++ [DQ].

Fixpoint join_lines (ls : list str) : str :=
  match ls with
  | [] => []
  | [l] => l
  | l :: rest => l ++ LF :: join_lines rest
  end.

(** A JSON object of the prompt's examples, as text. *)
Definition example_object (fields : list (str * str)) : str :=
  py "{"
  ++ concat (imap (fun i kv => (if i =? 0 then [] else py ", ")
                               ++ quoted (fst kv) ++ py ": " ++ quoted (snd kv)) fields)
  ++ py "}".

Definition system_prompt : str :=
  join_lines
    [ py "You are a command parser for a DialAI app. ";
      py "Parse the user's command and return a JSON object with the action and parameters.";
      [];
      py "Possible actions:";
      py "- " ++ quoted (py "call_single") ++ py ": Call a single phone number";
      py "- " ++ quoted (py "call_all") ++ py ": Start calling all numbers in the list";
      py "- " ++ quoted (py "unknown") ++ py ": If the command is unclear";
      [];
      py "Examples:";
      py "User: " ++ quoted (py "Call 9876543210");
      py "Response: "
        ++ example_object [(py "action", py "call_single"); (py "number", py "9876543210")];
      [];
      py "User: " ++ quoted (py "Start calling all numbers");
      py "Response: " ++ example_object [(py "action", py "call_all")];
      [];
      py "User: " ++ quoted (py "Make a call to 1800123456");
      py "Response: "
        ++ example_object [(py "action", py "call_single"); (py "number", py "1800123456")];
      [];
      py "Return ONLY valid JSON, no other text." ].

(** The three dictionaries that [parse_ai_command] writes out itself. *)
Definition call_single (number : str) : dict :=
  [(py "action", JStr (py "call_single")); (py "number", JStr number)].

Definition call_all : dict := [(py "action", JStr (py "call_all"))].

Definition unknown (error : str) : dict :=
  [(py "action", JStr (py "unknown")); (py "error", JStr error)].

(** The part of the [try] block that the two providers share: the first
    brace-delimited piece of the reply, decoded; [None] when the [if
    json_match] falls through. *)
Definition decode_reply (env : environment) (content : str) : outcome (option dict) :=
  let result_text := strip content in
  match re_search pat_braces result_text with
  | Some group0 => d ← json_loads env group0; mret (Some d)
  | None => mret None
  end.

(** The text that the backend answers with: [response.text] or
    [response.choices[0].message.content]. *)
Definition request_backend (backend : ai_backend) (prompt : str) : outcome str :=
  match backend with
  | gemini generate_content =>
      let full_prompt :=
        system_prompt ++ [LF; LF] ++ py "User command: " ++ prompt
        ++ [LF; LF] ++ py "Response:" in
      generate_content full_prompt
  | openai chat_completions_create =>
      chat_completions_create system_prompt prompt
  end.

(** The body of [try]. *)
Definition ask_backend (env : environment) (backend : ai_backend) (prompt : str)
  : outcome (option dict) :=
  content ← request_backend backend prompt;
  decode_reply env content.

Definition parse_ai_command (env : environment) (prompt : str) : outcome dict :=
  match ai_provider env with
  | None =>
      let single :=
        if contains (py "call") (lower prompt) && existsb is_digit prompt then
          match re_findall pat_digits_10 prompt with
          | n0 :: _ => Some (call_single n0)
          | [] => None
          end
        else None in
      match single with
      | Some d => Ok d
      | None =>
          if contains (py "start calling") (lower prompt)
             || contains (py "call all") (lower prompt)
          then Ok call_all
          else Ok (unknown (py "Could not parse command"))
      end
  | Some backend =>
      let answered := try_except (ask_backend env backend prompt) (fun e => Ok None) in
      d ← answered;
      match d with
      | Some d => Ok d
      | None =>
          let single :=
            if contains (py "call") (lower prompt) then
              match re_findall pat_digits_10 prompt with
              | n0 :: _ => Some (call_single n0)
              | [] => None
              end
            else None in
          match single with
          | Some d => Ok d
          | None =>
              if contains (py "start calling") (lower prompt)
                 || contains (py "call all") (lower prompt)
              then Ok call_all
              else Ok (unknown (py "Could not parse command"))
          end
      end
  end.

(** ** Call Dispatcher: [make_twilio_call] *)

Definition getenv_default (env : environment) (name default : str) : str :=
  match getenv env name with
  | Some v => v
  | None => default
  end.

(** The body of [except Exception as e], from [str(e)] to the error text of
    the result, in its two blocks: the message is cleaned, then guidance is
    added. *)
Definition failure_core (e : str) : str :=
  let error_msg := strip_ansi_codes e in
  if contains twilio_preamble error_msg then
    match split twilio_preamble error_msg with
    | _ :: part1 :: _ =>
        let error_msg := strip part1 in
        let error_msg := re_sub pat_colour_code [] error_msg in
        let error_msg := re_sub pat_more_information [] error_msg in
        let error_msg := strip error_msg in
        strip (re_sub pat_trailing_url [] error_msg)
    | _ => error_msg
    end
  else error_msg.

(** The arrow of the last message is U+2192, outside the range of characters
    modelled; it stands here as written in the source file. *)
Definition add_guidance (error_msg : str) : str :=
  if contains (py "not yet verified") (lower error_msg)
     || contains (py "unverified") (lower error_msg)
     || contains (py "verified") (lower error_msg) then
    if contains (py "source phone number") (lower error_msg) then
      error_msg ++ py " | Fix: Use a Twilio-purchased number in TWILIO_PHONE_NUMBER (Twilio numbers are auto-verified)"
    else
      match re_search pat_phone error_msg with
      | Some unverified_num =>
          error_msg ++ py " | Action Required: Verify the DESTINATION number "
          ++ unverified_num
          ++ py " at https://console.twilio.com/us1/develop/phone-numbers/manage/verified (Trial accounts must verify numbers they want to CALL)"
      | None =>
          error_msg ++ py " | Tip: For trial accounts, verify destination numbers in Twilio Console → Verified Caller IDs"
      end
  else error_msg.

Definition describe_failure (e : str) : str := add_guidance (failure_core e).

(** The message that the call speaks: [str(response)] after
    [response.say(message, voice=voice, language=language)]. *)
Definition call_twiml (env : environment) : str :=
  let message :=
    getenv_default env (py "CALL_MESSAGE")
      (py "Hello, this is a test call from the DialAI app.") in
  let voice := getenv_default env (py "CALL_VOICE") (py "alice") in
  let language := getenv_default env (py "CALL_LANGUAGE") (py "en") in
  say_twiml env message voice language.

(** The result, and the requests sent to the provider on the way. *)
Definition make_twilio_call (env : environment) (phone_number : str)
  : outcome CallResult.t * list str :=
  match twilio_client env with
  | None =>
      (Ok (CallResult.mk false None None None
             (Some (py "Twilio credentials not configured"))), [])
  | Some client =>
      let response := call_twiml env in
      (try_except
         (call ← calls_create client phone_number (TWILIO_PHONE_NUMBER env) response;
          mret (CallResult.mk true (Some (fst call)) (Some (snd call))
                  (Some phone_number) None))
         (fun e =>
            Ok (CallResult.mk false None None (Some phone_number)
                  (Some (describe_failure e)))),
       [phone_number])
  end.

(** ** [POST /call]: [initiate_calls] *)

(** The uploaded file: its name, and [content.decode('utf-8')]. *)
Record UploadFile : Type := {
  filename : option str;
  read_decode : outcome str
}.

(** The JSON body of the answer; a field is [None] when the key is absent. *)
Module CallsResponse.
Record t : Type := mk {
  success : bool;
  error : option str;
  total : option nat;
  results : option (list CallAttempt.t)
}.
End CallsResponse.

(** Truth of a [str] that may be [None]. *)
Definition truthy (s : option str) : bool :=
  match s with
  | Some (_ :: _) => true
  | _ => false
  end.

(** The numbers that the handler goes on with: the file, when one with a
    name came, else the form field. *)
Definition request_numbers (env : environment) (numbers : option str)
    (file : option UploadFile) : outcome (list str) :=
  match file with
  | Some f =>
      if truthy (filename f) then
        text ← read_decode f; mret (parse_phone_numbers env text)
      else
        match numbers with
        | Some (c :: t) => mret (parse_phone_numbers env (c :: t))
        | _ => mret []
        end
  | None =>
      match numbers with
      | Some (c :: t) => mret (parse_phone_numbers env (c :: t))
      | _ => mret []
      end
  end.

(** [for number in phone_numbers] *)
Fixpoint call_each (env : environment) (phone_numbers : list str)
    (results : list CallAttempt.t) (w : world)
  : outcome (list CallAttempt.t) * world :=
  match phone_numbers with
  | [] => (Ok results, w)
  | number :: rest =>
      let (result, requests) := make_twilio_call env number in
      let w := {| disk := disk w; sent := sent w ++ requests; clock := clock w |} in
      match result with
      | Raised e => (Raised e, w)
      | Ok result =>
          let call_log :=
            CallAttempt.mk number
              (default (py "failed") (CallResult.status result))
              (CallResult.success result)
              (now_isoformat env (clock w))
              (CallResult.call_sid result)
              (CallResult.error result) in
          let w := {| disk := save_call_log call_log (disk w);
                      sent := sent w; clock := S (clock w) |} in
          call_each env rest (results ++ [call_log]) w
      end
  end.

Definition initiate_calls (env : environment) (numbers : option str)
    (file : option UploadFile) (w : world) : outcome CallsResponse.t * world :=
  match request_numbers env numbers file with
  | Raised e => (Raised e, w)
  | Ok [] =>
      (Ok (CallsResponse.mk false (Some (py "No valid phone numbers provided")) None None), w)
  | Ok phone_numbers =>
      let (results, w) := call_each env phone_numbers [] w in
      match results with
      | Raised e => (Raised e, w)
      | Ok results =>
          (Ok (CallsResponse.mk true None (Some (length phone_numbers)) (Some results)), w)
      end
  end.

(** ** The log file with any content *)

(** An entry as [json.dump] writes it and [json.load] reads it back: the
    dictionary that [initiate_calls] builds, key by key. *)
Definition attempt_json (call_log : CallAttempt.t) : jval :=
  let optional (s : option str) :=
    match s with Some s => JStr s | None => JNull end in
  JDict [ (py "number", JStr (CallAttempt.number call_log));
          (py "status", JStr (CallAttempt.status call_log));
          (py "success", JBool (CallAttempt.success call_log));
          (py "timestamp", JStr (CallAttempt.timestamp call_log));
          (py "call_sid", optional (CallAttempt.call_sid call_log));
          (py "error", optional (CallAttempt.error call_log)) ].

(** [type(v).__name__] *)
Definition type_name (v : jval) : str :=
  match v with
  | JNull => py "NoneType"
  | JBool _ => py "bool"
  | JInt _ => py "int"
  | JStr _ => py "str"
  | JList _ => py "list"
  | JDict _ => py "dict"
  end.

Module Disk.

(** [calls.json] with whatever it holds: no file, a text that [json.load]
    rejects, or the value that it decodes to, an array or not.  The file can
    be read and written; [json.dump] followed by [json.load] gives back the
    value written. *)
Inductive file : Type :=
  | absent
  | undecodable
  | holds (v : jval).

(** [load_call_logs]: what [json.load] gives is returned as it is. *)
Definition load_call_logs (f : file) : jval :=
  match f with
  | holds v => v
  | undecodable => JList []
  | absent => JList []
  end.

(** [save_call_log]: [logs.append] comes before the file is opened for
    writing, and only a list has the method. *)
Definition save_call_log (call_data : CallAttempt.t) (f : file) : outcome file :=
  match load_call_logs f with
  | JList logs => Ok (holds (JList (logs ++ [attempt_json call_data])))
  | v => Raised (py "'" ++ type_name v ++ py "' object has no attribute 'append'")
  end.

(** Appending the records of a list one by one. *)
Fixpoint save_all (records : list CallAttempt.t) (f : file) : outcome file :=
  match records with
  | [] => Ok f
  | call_data :: rest => f' ← save_call_log call_data f; save_all rest f'
  end.

(** The file of a log. *)
Definition of_log (f : calls_json) : file :=
  match f with
  | no_file => absent
  | not_json => undecodable
  | stored logs => holds (JList (map attempt_json logs))
  end.

(** The world of the handler, with the file as it is. *)
Record world : Type := {
  disk : file;
  sent : list str;
  clock : nat
}.

(** [for number in phone_numbers]; [save_call_log] may raise, after the
    call was requested and the time was taken. *)
Fixpoint call_each (env : environment) (phone_numbers : list str)
    (results : list CallAttempt.t) (w : world)
  : outcome (list CallAttempt.t) * world :=
  match phone_numbers with
  | [] => (Ok results, w)
  | number :: rest =>
      let (result, requests) := make_twilio_call env number in
      let w := {| disk := disk w; sent := sent w ++ requests; clock := clock w |} in
      match result with
      | Raised e => (Raised e, w)
      | Ok result =>
          let call_log :=
            CallAttempt.mk number
              (default (py "failed") (CallResult.status result))
              (CallResult.success result)
              (now_isoformat env (clock w))
              (CallResult.call_sid result)
              (CallResult.error result) in
          match save_call_log call_log (disk w) with
          | Raised e =>
              (Raised e, {| disk := disk w; sent := sent w; clock := S (clock w) |})
          | Ok f =>
              call_each env rest (results ++ [call_log])
                {| disk := f; sent := sent w; clock := S (clock w) |}
          end
      end
  end.

Definition initiate_calls (env : environment) (numbers : option str)
    (file : option UploadFile) (w : world) : outcome CallsResponse.t * world :=
  match request_numbers env numbers file with
  | Raised e => (Raised e, w)
  | Ok [] =>
      (Ok (CallsResponse.mk false (Some (py "No valid phone numbers provided")) None None), w)
  | Ok phone_numbers =>
      let (results, w) := call_each env phone_numbers [] w in
      match results with
      | Raised e => (Raised e, w)
      | Ok results =>
          (Ok (CallsResponse.mk true None (Some (length phone_numbers)) (Some results)), w)
      end
  end.

End Disk.

(** The world of a log. *)
Definition file_world (w : world) : Disk.world :=
  {| Disk.disk := Disk.of_log (disk w); Disk.sent := sent w; Disk.clock := clock w |}.


(** ** [POST /ai-command]: [handle_ai_command] *)

(** [d.get(key)]; a [dict] holds each key once. *)
Fixpoint dict_get (d : dict) (key : str) : option jval :=
  match d with
  | [] => None
  | (k, v) :: rest => if decide (k = key) then Some v else dict_get rest key
  end.

(** [v == s] for a [str] literal [s] *)
Definition equals_str (v : jval) (s : str) : bool :=
  match v with
  | JStr s' => bool_decide (s' = s)
  | _ => false
  end.

(** Truth of a decoded value. *)
Definition jtruthy (v : jval) : bool :=
  match v with
  | JNull => false
  | JBool b => b
  | JInt n => negb (Z.eqb n 0)
  | JStr s => match s with [] => false | _ :: _ => true end
  | JList l => match l with [] => false | _ :: _ => true end
  | JDict d => match d with [] => false | _ :: _ => true end
  end.

(** The JSON body of the answer; a field is [None] when the key is absent. *)
Module AiResponse.
Record t : Type := mk {
  success : bool;
  action : option str;
  result : option CallAttempt.t;
  total : option nat;
  results : option (list CallAttempt.t);
  error : option jval;
  parsed : option dict
}.
End AiResponse.

(** A run of the handler: it answers or raises, in a world; or it goes on
    to call a [number] that the language model gave as something else than a
    [str], where this development stops following it. *)
Inductive ai_run : Type :=
  | responded (r : outcome AiResponse.t) (w : world)
  | number_not_str (number : jval).

Definition handle_ai_command (env : environment) (command : str)
    (numbers : option str) (w : world) : ai_run :=
  match parse_ai_command env command with
  | Raised e => responded (Raised e) w
  | Ok parsed =>
      match dict_get parsed (py "action") with
      | None => responded (Raised (py "'action'")) w
      | Some action =>
          if equals_str action (py "call_single") then
            let no_number :=
              responded
                (Ok (AiResponse.mk false None None None None
                       (Some (JStr (py "No phone number found in command"))) None)) w in
            match dict_get parsed (py "number") with
            | Some (JStr (c :: t)) =>
                let number := c :: t in
                let (result, requests) := make_twilio_call env number in
                let w := {| disk := disk w; sent := sent w ++ requests; clock := clock w |} in
                match result with
                | Raised e => responded (Raised e) w
                | Ok result =>
                    let call_log :=
                      CallAttempt.mk number
                        (default (py "failed") (CallResult.status result))
                        (CallResult.success result)
                        (now_isoformat env (clock w))
                        (CallResult.call_sid result)
                        (CallResult.error result) in
                    let w := {| disk := save_call_log call_log (disk w);
                                sent := sent w; clock := S (clock w) |} in
                    responded
                      (Ok (AiResponse.mk true (Some (py "call_single")) (Some call_log)
                             None None None None)) w
                end
            | Some number => if jtruthy number then number_not_str number else no_number
            | None => no_number
            end
          else if equals_str action (py "call_all") then
            match numbers with
            | Some (c :: t) =>
                match parse_phone_numbers env (c :: t) with
                | [] =>
                    responded
                      (Ok (AiResponse.mk false None None None None
                             (Some (JStr (py "No valid phone numbers found"))) None)) w
                | phone_numbers =>
                    let (results, w) := call_each env phone_numbers [] w in
                    match results with
                    | Raised e => responded (Raised e) w
                    | Ok results =>
                        responded
                          (Ok (AiResponse.mk true (Some (py "call_all")) None
                                 (Some (length phone_numbers)) (Some results) None None)) w
                    end
                end
            | _ =>
                responded
                  (Ok (AiResponse.mk false None None None None
                         (Some (JStr (py "No phone numbers available to call"))) None)) w
            end
          else
            responded
              (Ok (AiResponse.mk false None None None None
                     (Some (default (JStr (py "Unknown command"))
                              (dict_get parsed (py "error"))))
                     (Some parsed))) w
      end
  end.

(** ** [GET /api/check-verification/{phone_number}]: [check_verification] *)

(** The JSON body and the status of the answer. *)
Module VerificationResponse.
Record t : Type := mk {
  status_code : nat;
  success : bool;
  error : option str;
  phone_number : option str;
  is_verified : option bool;
  verified_numbers : option (list str);
  message : option str
}.
End VerificationResponse.

(** The first lines of the [try] block: the number that is looked up. *)
Definition cleaned_query (phone_number : str) : str :=
  let cleaned_number := strip phone_number in
  if negb (startswith (py "+") cleaned_number) then
    if length cleaned_number =? 10 then py "+1" ++ cleaned_number
    else if (length cleaned_number =? 11) && startswith (py "1") cleaned_number
    then py "+" ++ cleaned_number
    else cleaned_number
  else cleaned_number.

Definition check_verification (env : environment) (phone_number : str)
  : outcome VerificationResponse.t :=
  match twilio_client env with
  | None =>
      Ok (VerificationResponse.mk 200 false
            (Some (py "Twilio credentials not configured")) None None None None)
  | Some client =>
      try_except
        (let cleaned_number := cleaned_query phone_number in
         verified_phone_numbers ← outgoing_caller_ids_list client;
         let normalized_verified :=
           map (re_sub pat_not_digit_plus []) verified_phone_numbers in
         let normalized_check := re_sub pat_not_digit_plus [] cleaned_number in
         let is_verified := bool_decide (normalized_check ∈ normalized_verified) in
         mret (VerificationResponse.mk 200 true None (Some cleaned_number)
                 (Some is_verified) (Some verified_phone_numbers)
                 (Some (if is_verified then py "Verified"
                        else py "Number " ++ cleaned_number
                             ++ py " is NOT verified. Please verify it in Twilio Console."))))
        (fun e =>
           Ok (VerificationResponse.mk 500 false (Some e) (Some phone_number)
                 None None None))
  end.

(** ** Vocabulary of the properties *)

(** The three shapes of a parsed command. *)
Definition is_parsed_command (d : dict) : Prop :=
  (exists number, d = call_single number)
  \/ d = call_all
  \/ (exists error, d = unknown error).

(** Two log entries that agree on every field but [error]. *)
Definition same_but_error (old new : CallAttempt.t) : Prop :=
  CallAttempt.number new = CallAttempt.number old
  /\ CallAttempt.status new = CallAttempt.status old
  /\ CallAttempt.success new = CallAttempt.success old
  /\ CallAttempt.timestamp new = CallAttempt.timestamp old
  /\ CallAttempt.call_sid new = CallAttempt.call_sid old.

(** What the cleanup pass leaves in the [error] field. *)
Definition cleaned_error (error : option str) : option str :=
  match error with
  | Some (c :: t) => Some (clean_error_message (c :: t))
  | other => other
  end.

(** Appending the records of a list one by one. *)
Definition save_all (records : list CallAttempt.t) (f : calls_json) : calls_json :=
  foldl (fun f call_data => save_call_log call_data f) f records.

(** The last ten digits of a verified number, in the words of the
    specification. *)
Definition last_10_digits (v : str) : str := last_n 10 (re_sub pat_not_digit [] v).

(** The key under which [index_verified] files a number. *)
Definition index_key (v : str) : str := last_n 10 (re_sub pat_not_digit_plus [] v).

(** The characters that [[^\d+]] leaves, and those that deleting [x]
    leaves. *)
Definition is_digit_or_plus (c : ascii) : bool := is_decimal c || is_char 43 c.

Definition is_not (x c : ascii) : bool := if ascii_dec x c then false else true.

(** The upload that [initiate_calls] reads: one that has a name. *)
Definition named_upload (file : option UploadFile) : option UploadFile :=
  match file with
  | Some f => if truthy (filename f) then Some f else None
  | None => None
  end.

(** The numbers of the form field, when it is not empty. *)
Definition form_numbers (env : environment) (numbers : option str) : list str :=
  match numbers with
  | Some (c :: t) => parse_phone_numbers env (c :: t)
  | _ => []
  end.

(** The handler answers for a list of numbers: [success] says whether the
    list holds a number; an empty list gives the error and changes nothing,
    another one gives a result per number. *)
Definition answers_for (env : environment) (numbers : option str)
    (file : option UploadFile) (w : Disk.world) (phone_numbers : list str) : Prop :=
  exists response w',
    Disk.initiate_calls env numbers file w = (Ok response, w')
    /\ (CallsResponse.success response = true <-> phone_numbers <> [])
    /\ (CallsResponse.success response = false <-> phone_numbers = [])
    /\ (phone_numbers = [] ->
        CallsResponse.error response = Some (py "No valid phone numbers provided")
        /\ w' = w)
    /\ (phone_numbers <> [] ->
        exists results,
          CallsResponse.results response = Some results
          /\ CallsResponse.total response = Some (length phone_numbers)
          /\ map CallAttempt.number results = phone_numbers).

(** A text in which white space is single blanks only: every white-space
    character is a blank, and none is followed by white space. *)
Fixpoint single_spaced (s : str) : bool :=
  match s with
  | [] => true
  | c :: t =>
      (negb (is_space c)
       || (is_char 32 c && match t with d :: _ => negb (is_space d) | [] => true end))
      && single_spaced t
  end.

(** The footer of a verbose provider error. *)
Definition footer : str := py "More information may be available here:".

(** ** Environments of the examples *)

(** No credentials at all in the environment. *)
Definition unconfigured : environment :=
  {| twilio_client := None;
     TWILIO_PHONE_NUMBER := None;
     ai_provider := None;
     getenv := fun _ => None;
     say_twiml := fun message voice language => message;
     json_loads := fun _ => Raised (py "Expecting value");
     now_isoformat := fun n => py "2024-01-01T00:00:0" ++ [ascii_of_nat (48 + n mod 10)] |}.

(** A provider that refuses every call. *)
Definition refusal_text : str :=
  py "HTTP Error Your request was:" ++ [LF]
  ++ py "Twilio returned the following information:" ++ [LF]
  ++ py "Unable to create record: The number is unverified." ++ [LF]
  ++ py "More information may be available here: https://www.twilio.com/docs/errors/21219".

Definition refusing_client : Client :=
  {| calls_create := fun to from_ twiml => Raised refusal_text;
     outgoing_caller_ids_list := Ok [] |}.

Definition refusing : environment :=
  {| twilio_client := Some refusing_client;
     TWILIO_PHONE_NUMBER := Some (py "+15005550006");
     ai_provider := None;
     getenv := getenv unconfigured;
     say_twiml := say_twiml unconfigured;
     json_loads := json_loads unconfigured;
     now_isoformat := now_isoformat unconfigured |}.

(** A language model that answers with an action of its own, and a decoder
    that reads this one object as [json.loads] does. *)
Definition hang_up_text : str := example_object [(py "action", py "hang_up")].

Definition hang_up : dict := [(py "action", JStr (py "hang_up"))].

Definition inventive : environment :=
  {| twilio_client := None;
     TWILIO_PHONE_NUMBER := None;
     ai_provider := Some (gemini (fun _ => Ok hang_up_text));
     getenv := getenv unconfigured;
     say_twiml := say_twiml unconfigured;
     json_loads := fun text =>
       if decide (text = hang_up_text) then Ok hang_up else Raised (py "Expecting value");
     now_isoformat := now_isoformat unconfigured |}.

(** A language model that answers with an empty object, and a decoder that
    reads it as [json.loads] does. *)
Definition terse : environment :=
  {| twilio_client := None;
     TWILIO_PHONE_NUMBER := None;
     ai_provider := Some (openai (fun _ _ => Ok (py "{ }")));
     getenv := getenv unconfigured;
     say_twiml := say_twiml unconfigured;
     json_loads := fun text =>
       if decide (text = py "{ }") then Ok [] else Raised (py "Expecting value");
     now_isoformat := now_isoformat unconfigured |}.

(** A client with one verified caller id, under the country code 91. *)
Definition one_caller_id : environment :=
  {| twilio_client :=
       Some {| calls_create := fun to from_ twiml => Ok (py "CA1", py "queued");
               outgoing_caller_ids_list := Ok [py "+91" ++ py "9876543210"] |};
     TWILIO_PHONE_NUMBER := Some (py "+15005550006");
     ai_provider := None;
     getenv := getenv unconfigured;
     say_twiml := say_twiml unconfigured;
     json_loads := json_loads unconfigured;
     now_isoformat := now_isoformat unconfigured |}.

(** A provider that refuses every call with a text that has no preamble. *)
Definition http_error_text : str :=
  py "HTTP Error 400" ++ [LF] ++ py "Unable to create record:  The number" ++ [LF]
  ++ py "  is invalid.".

Definition rejecting : environment :=
  {| twilio_client :=
       Some {| calls_create := fun to from_ twiml => Raised http_error_text;
               outgoing_caller_ids_list := Ok [] |};
     TWILIO_PHONE_NUMBER := Some (py "+15005550006");
     ai_provider := None;
     getenv := getenv unconfigured;
     say_twiml := say_twiml unconfigured;
     json_loads := json_loads unconfigured;
     now_isoformat := now_isoformat unconfigured |}.

(** A world without a log file, one whose log file holds a JSON object, an
    entry, and three uploads. *)
Definition fresh : Disk.world :=
  {| Disk.disk := Disk.absent; Disk.sent := []; Disk.clock := 0 |}.

Definition object_in_file : Disk.world :=
  {| Disk.disk := Disk.holds (JDict []); Disk.sent := []; Disk.clock := 0 |}.

Definition sample_attempt : CallAttempt.t :=
  CallAttempt.mk (py "+14567890123") (py "queued") true (py "2024-01-01T00:00:00")
    (Some (py "CA1")) None.

Definition upload_without_numbers : UploadFile :=
  {| filename := Some (py "numbers.txt"); read_decode := Ok (py "to be announced") |}.

Definition upload_not_utf8 : UploadFile :=
  {| filename := Some (py "numbers.bin");
     read_decode := Raised (py "'utf-8' codec can't decode byte 0xff in position 0") |}.

(** The text of the upload scenario. *)
Definition scenario_text : str :=
  py "123, 4567890123" ++ [LF] ++ py "+442071838750".

Definition upload_of_scenario : UploadFile :=
  {| filename := Some (py "numbers.txt"); read_decode := Ok scenario_text |}.

(** The error text of the sanitizer example. *)
Definition verbose_error : str :=
  py "Twilio returned the following information:" ++ [LF]
  ++ py "  Some error" ++ [LF]
  ++ py "More information may be available here: http://x".

(** * Properties *)

(** ** Call Log Store *)

Lemma load_save_call_log (call_data : CallAttempt.t) (f : calls_json) :
  load_call_logs (save_call_log call_data f) = load_call_logs f ++ [call_data].
Proof. reflexivity. Qed.

(** On a log, appending the records of a list one by one and loading gives
    what a load gave at the start, followed by the records in the order of
    the appends. *)
Lemma load_after_appends (records : list CallAttempt.t) (f : calls_json) :
  load_call_logs (save_all records f) = load_call_logs f ++ records.
Proof.
  unfold save_all. revert f.
  induction records as [|r records IH]; intros f; simpl.
  - now rewrite app_nil_r.
  - rewrite IH, load_save_call_log, <- app_assoc. reflexivity.
Qed.

(** *** The file with any content *)

(** The functions on a log are the functions on the file, at the files of
    logs. *)
Lemma disk_load_of_log (f : calls_json) :
  Disk.load_call_logs (Disk.of_log f) = JList (map attempt_json (load_call_logs f)).
Proof. destruct f; reflexivity. Qed.

Lemma disk_save_of_log (call_data : CallAttempt.t) (f : calls_json) :
  Disk.save_call_log call_data (Disk.of_log f)
  = Ok (Disk.of_log (save_call_log call_data f)).
Proof.
  unfold Disk.save_call_log. rewrite disk_load_of_log.
  unfold save_call_log. cbn [Disk.of_log]. now rewrite map_app.
Qed.

(** Entries are told apart by what is written of them. *)
Lemma attempt_json_injective (a b : CallAttempt.t) :
  attempt_json a = attempt_json b -> a = b.
Proof.
  destruct a as [n1 s1 b1 t1 [c1|] [e1|]], b as [n2 s2 b2 t2 [c2|] [e2|]];
    cbv [attempt_json CallAttempt.number CallAttempt.status CallAttempt.success
         CallAttempt.timestamp CallAttempt.call_sid CallAttempt.error];
    intros H; inversion H; reflexivity.
Qed.

Lemma attempts_json_injective (l1 l2 : list CallAttempt.t) :
  map attempt_json l1 = map attempt_json l2 -> l1 = l2.
Proof.
  revert l2. induction l1 as [|a l1 IH]; intros [|b l2]; cbn [map];
    try discriminate.
  - reflexivity.
  - generalize (attempt_json a) (attempt_json b) (attempt_json_injective a b).
    intros x y Hxy H. injection H as Ha Hl.
    rewrite (Hxy Ha), (IH l2 Hl). reflexivity.
Qed.

(** An append to a file that holds something else than an array raises. *)
Lemma save_call_log_needs_list (call_data : CallAttempt.t) (f : Disk.file) :
  (forall logs, Disk.load_call_logs f <> JList logs) ->
  Disk.save_call_log call_data f
  = Raised (py "'" ++ type_name (Disk.load_call_logs f)
            ++ py "' object has no attribute 'append'").
Proof.
  intros Hload. unfold Disk.save_call_log.
  destruct (Disk.load_call_logs f) as [| | | |logs|]; try reflexivity.
  now destruct (Hload logs).
Qed.

(** C5, as the code has it: when the file is missing, is not decodable or
    holds an array, the appends of the records of a list all succeed, and a
    load then gives what a load gave at the start followed by the records as
    written, in the order of the appends; the written form tells the records
    apart.  When the file holds something else than an array, the first
    append raises. *)
Theorem appends_then_load (records : list CallAttempt.t) (f : Disk.file) :
  (forall logs,
      Disk.load_call_logs f = JList logs ->
      (exists f',
          Disk.save_all records f = Ok f'
          /\ Disk.load_call_logs f' = JList (logs ++ map attempt_json records))
      /\ (forall others,
            map attempt_json others = map attempt_json records -> others = records))
  /\ ((forall logs, Disk.load_call_logs f <> JList logs) ->
      forall call_data rest,
        exists e, Disk.save_all (call_data :: rest) f = Raised e).
Proof.
  split.
  - intros logs Hload. split; [|intros others; apply attempts_json_injective].
    revert f logs Hload.
    induction records as [|r rs IH]; intros f logs Hload; cbn [Disk.save_all].
    + exists f. split; [reflexivity|]. now rewrite app_nil_r.
    + unfold Disk.save_call_log at 1. rewrite Hload. cbn [mbind outcome_bind].
      destruct (IH (Disk.holds (JList (logs ++ [attempt_json r])))
                  (logs ++ [attempt_json r]) eq_refl) as (f' & Hsave & Hf').
      exists f'. split; [exact Hsave|]. rewrite Hf', <- app_assoc. reflexivity.
  - intros Hload call_data rest. cbn [Disk.save_all].
    rewrite (save_call_log_needs_list call_data f Hload). eexists. reflexivity.
Qed.

Lemma appends_then_load_witness :
  ((exists f',
       Disk.save_all [sample_attempt; sample_attempt] Disk.undecodable = Ok f'
       /\ Disk.load_call_logs f'
          = JList ([] ++ map attempt_json [sample_attempt; sample_attempt]))
   /\ (forall others,
         map attempt_json others = map attempt_json [sample_attempt; sample_attempt] ->
         others = [sample_attempt; sample_attempt]))
  /\ exists e, Disk.save_all [sample_attempt] (Disk.holds (JInt 0)) = Raised e.
Proof.
  split.
  - apply (proj1 (appends_then_load [sample_attempt; sample_attempt] Disk.undecodable) []).
    reflexivity.
  - apply (proj2 (appends_then_load [] (Disk.holds (JInt 0)))).
    intros logs. discriminate.
Defined.

(** C5, as the specification words it, fails at a file that holds a JSON
    object: the load gives the object, and the first append raises. *)
Lemma append_to_object_raises :
  Disk.load_call_logs (Disk.holds (JDict [])) = JDict []
  /\ Disk.save_all [sample_attempt] (Disk.holds (JDict []))
     = Raised (py "'dict' object has no attribute 'append'").
Proof. split; reflexivity. Qed.

(** ** Cleanup of the log *)

Lemma cleanup_log_frame (log : CallAttempt.t) :
  same_but_error log (cleanup_log log)
  /\ CallAttempt.error (cleanup_log log) = cleaned_error (CallAttempt.error log).
Proof.
  unfold cleanup_log, same_but_error, cleaned_error.
  destruct (CallAttempt.error log) as [[|c t]|] eqn:E; simpl; rewrite ?E; tauto.
Qed.

(** C9: on a stored log the cleanup pass writes a log with an entry for each
    entry, in the same order, and returns their number; each entry keeps its
    number, status, success, timestamp and call id, and its error, when
    present and not empty, is replaced by its sanitized form.  With no file,
    or one that is not decodable, it writes an empty log and returns 0. *)
Theorem cleanup_all_logs_entries :
  (forall logs,
      exists cleaned,
        cleanup_all_logs (stored logs) = (stored cleaned, length logs)
        /\ Forall2 (fun old new =>
                      same_but_error old new
                      /\ CallAttempt.error new = cleaned_error (CallAttempt.error old))
             logs cleaned)
  /\ cleanup_all_logs no_file = (stored [], 0)
  /\ cleanup_all_logs not_json = (stored [], 0).
Proof.
  split; [|split; reflexivity].
  intros logs. exists (map cleanup_log logs). split.
  - unfold cleanup_all_logs. cbn [load_call_logs]. now rewrite length_map.
  - induction logs as [|log logs IH]; simpl; constructor.
    + apply cleanup_log_frame.
    + exact IH.
Qed.

(** ** Error Sanitizer *)

(** C7: the verbose Twilio text of the specification is cut down to its
    core message, which holds neither a URL nor an escape character. *)
Theorem clean_error_message_example :
  clean_error_message verbose_error = py "Some error"
  /\ contains (py "http") (clean_error_message verbose_error) = false
  /\ existsb (is_char 27) (clean_error_message verbose_error) = false.
Proof. vm_compute. auto. Qed.

(** ** Command Interpreter, without a backend *)

(** C8: with no language model configured the three commands of the
    specification give call_single with the number, call_all, and unknown. *)
Theorem fallback_examples (env : environment) :
  ai_provider env = None ->
  parse_ai_command env (py "Call 9876543210 now") = Ok (call_single (py "9876543210"))
  /\ parse_ai_command env (py "start calling all numbers") = Ok call_all
  /\ exists error, parse_ai_command env (py "hello there") = Ok (unknown error).
Proof.
  intros H. unfold parse_ai_command. rewrite H.
  repeat split; [vm_compute; reflexivity ..|].
  eexists. vm_compute. reflexivity.
Qed.

Lemma fallback_examples_witness :
  ai_provider unconfigured = None
  /\ parse_ai_command unconfigured (py "Call 9876543210 now")
    = Ok (call_single (py "9876543210"))
  /\ parse_ai_command unconfigured (py "start calling all numbers") = Ok call_all
  /\ exists error, parse_ai_command unconfigured (py "hello there") = Ok (unknown error).
Proof. split; [reflexivity | apply (fallback_examples unconfigured); reflexivity]. Defined.

(** ** Number Normalizer *)

(** C4: the scenario text gives the two numbers in order; of its three
    candidates the first is dropped for having three digits, the second gets
    [+1], the third is kept as it is. *)
Theorem scenario_normalized :
  normalize_numbers [] scenario_text = [py "+14567890123"; py "+442071838750"]
  /\ re_split pat_separators scenario_text
     = [py "123"; py " 4567890123"; py "+442071838750"]
  /\ length (re_sub pat_not_digit [] (py "123")) < 10
  /\ normalize_candidate ∅ (py "123") = None
  /\ normalize_candidate ∅ (py " 4567890123") = Some (py "+1" ++ py "4567890123")
  /\ normalize_candidate ∅ (py "+442071838750") = Some (py "+442071838750").
Proof. vm_compute. repeat split; lia. Qed.

(** A candidate of ten characters that the index does not know gets [+1],
    whatever its first digit: the branch for [9] is never reached. *)
Lemma add_country_code_unmatched (verified_digits : gmap str str) (num_clean : str) :
  length num_clean = 10 ->
  verified_digits !! num_clean = None ->
  add_country_code verified_digits num_clean = py "+1" ++ num_clean.
Proof.
  intros Hlen Hnone. unfold add_country_code.
  rewrite Hlen, Hnone. reflexivity.
Qed.

(** C1: at [9876543210], with no verified number, the normaliser gives
    [+19876543210], not the [+91] form. *)
Theorem nine_prefixed_gets_plus_one :
  normalize_numbers [] (py "9876543210") = [py "+19876543210"]
  /\ normalize_numbers [] (py "9876543210") <> [py "+91" ++ py "9876543210"].
Proof. vm_compute. split; [reflexivity | discriminate]. Qed.

(** *** Substitutions that delete single characters are filters *)

Lemma re_sub_deletes (m : matcher) (keep : ascii -> bool) :
  (forall c t, m (c :: t) = if keep c then None else Some 1) ->
  forall s, re_sub m [] s = List.filter keep s.
Proof.
  intros Hm s. unfold re_sub.
  induction s as [|c t IH]; simpl; [reflexivity|].
  rewrite Hm. destruct (keep c); simpl; now rewrite IH.
Qed.

Lemma re_sub_not_digit (s : str) :
  re_sub pat_not_digit [] s = List.filter is_decimal s.
Proof. apply re_sub_deletes. reflexivity. Qed.

Lemma re_sub_not_digit_plus (s : str) :
  re_sub pat_not_digit_plus [] s = List.filter is_digit_or_plus s.
Proof. apply re_sub_deletes. reflexivity. Qed.

Lemma replace_char_deletes (x : ascii) (s : str) :
  replace [x] [] s = List.filter (is_not x) s.
Proof.
  apply re_sub_deletes. intros c t. unfold literal, is_not; simpl.
  now destruct (ascii_dec x c).
Qed.

Lemma filter_of_filter (p q : ascii -> bool) (s : str) :
  (forall c, p c = true -> q c = true) ->
  List.filter p (List.filter q s) = List.filter p s.
Proof.
  intros Hpq. induction s as [|c t IH]; simpl; [reflexivity|].
  destruct (q c) eqn:Hq; simpl.
  - now rewrite IH.
  - destruct (p c) eqn:Hp; [|exact IH].
    apply Hpq in Hp. congruence.
Qed.

Lemma filter_drop_length (p : ascii -> bool) (n : nat) (s : str) :
  length (List.filter p (drop n s)) <= length (List.filter p s).
Proof.
  revert n. induction s as [|c t IH]; intros [|n]; simpl; try lia.
  specialize (IH n). destruct (p c); simpl; lia.
Qed.

Lemma filter_all (p : ascii -> bool) (s : str) :
  forallb p s = true -> List.filter p s = s.
Proof.
  induction s as [|c t IH]; simpl; [reflexivity|].
  intros [Hc Ht]%andb_prop. rewrite Hc, IH by exact Ht. reflexivity.
Qed.

Lemma decimal_is_not (x c : ascii) :
  is_decimal x = false -> is_decimal c = true -> is_not x c = true.
Proof.
  intros Hx Hc. unfold is_not. destruct (ascii_dec x c); [congruence | reflexivity].
Qed.

(** The stored format of a number has the digits of the number. *)
Lemma stored_format_digits (v : str) :
  List.filter is_decimal (stored_format v) = List.filter is_decimal v.
Proof.
  unfold stored_format.
  change (py "-") with ["-"%char]. change (py " ") with [" "%char].
  rewrite !replace_char_deletes.
  rewrite !filter_of_filter; [reflexivity | |];
    intros c Hc; apply decimal_is_not; auto.
Qed.

(** A key of ten digits comes from a number with ten digits or more. *)
Lemma index_key_digits (v cand : str) :
  index_key v = cand -> length cand = 10 -> forallb is_decimal cand = true ->
  10 <= length (re_sub pat_not_digit_plus [] v)
  /\ 10 <= length (List.filter is_decimal v).
Proof.
  unfold index_key, last_n. intros Hkey Hlen Hdec.
  rewrite re_sub_not_digit_plus in *.
  set (d := List.filter is_digit_or_plus v) in *.
  split.
  - assert (length (drop (length d - 10) d) = 10) as H by (rewrite Hkey; exact Hlen).
    rewrite length_drop in H. lia.
  - assert (List.filter is_decimal d = List.filter is_decimal v) as <-.
    { apply filter_of_filter. intros c Hc. unfold is_digit_or_plus. now rewrite Hc. }
    pose proof (filter_drop_length is_decimal (length d - 10) d) as Hle.
    rewrite Hkey, (filter_all _ _ Hdec), Hlen in Hle. exact Hle.
Qed.

(** *** Candidates of ten digits *)

Lemma starts_with_digit (x c : ascii) (t : str) :
  is_decimal x = false -> is_decimal c = true -> startswith [x] (c :: t) = false.
Proof.
  intros Hx Hc. cbn [startswith].
  destruct (ascii_dec x c) as [<-|]; [congruence | reflexivity].
Qed.

Lemma normalize_candidate_unmatched (verified_digits : gmap str str) (num cand : str) :
  re_sub pat_not_digit_plus [] (strip num) = cand ->
  length cand = 10 ->
  forallb is_decimal cand = true ->
  verified_digits !! cand = None ->
  normalize_candidate verified_digits num = Some (py "+1" ++ cand).
Proof.
  intros Hclean Hlen Hdec Hnone. unfold normalize_candidate. rewrite Hclean.
  destruct cand as [|c t]; [discriminate|].
  change (py "+") with ["+"%char].
  rewrite starts_with_digit
    by (reflexivity || (simpl in Hdec; now apply andb_prop in Hdec as [Hc _])).
  simpl negb. cbv iota.
  rewrite add_country_code_unmatched by assumption.
  rewrite re_sub_not_digit.
  change (py "+1" ++ c :: t) with ("+"%char :: "1"%char :: c :: t).
  change (List.filter is_decimal ("+"%char :: "1"%char :: c :: t))
    with ("1"%char :: List.filter is_decimal (c :: t)).
  rewrite (filter_all _ _ Hdec). cbn [length] in *.
  assert (length t = 9) as -> by lia. reflexivity.
Qed.

(** *** The index *)

Lemma index_verified_lookup (m : gmap str str) (v k : str) :
  index_verified m v !! k
  = if (10 <=? length (re_sub pat_not_digit_plus [] v)) && bool_decide (index_key v = k)
    then Some (stored_format v) else m !! k.
Proof.
  unfold index_verified, index_key.
  destruct (10 <=? _); simpl; [|reflexivity].
  case_bool_decide as Hk.
  - subst k. apply lookup_insert_eq.
  - now apply lookup_insert_ne.
Qed.

Lemma index_later_others (post : list str) (m : gmap str str) (k : str) :
  Forall (fun w => index_key w <> k) post ->
  foldl index_verified m post !! k = m !! k.
Proof.
  intros Hpost. revert m.
  induction Hpost as [|w post Hw _ IH]; intros m; simpl; [reflexivity|].
  rewrite IH, index_verified_lookup.
  rewrite bool_decide_eq_false_2 by exact Hw.
  now rewrite andb_false_r.
Qed.

(** The entry under a key is the stored format of the last number filed
    under it. *)
Lemma build_verified_digits_last (pre post : list str) (v cand : str) :
  index_key v = cand -> length cand = 10 ->
  Forall (fun w => index_key w <> cand) post ->
  build_verified_digits (pre ++ v :: post) !! cand = Some (stored_format v).
Proof.
  intros Hkey Hlen Hpost. unfold build_verified_digits.
  rewrite foldl_app. simpl.
  rewrite index_later_others by exact Hpost.
  rewrite index_verified_lookup.
  assert (10 <= length (re_sub pat_not_digit_plus [] v)) as Hten.
  { revert Hkey. unfold index_key, last_n. intros Hkey.
    assert (length (drop (length (re_sub pat_not_digit_plus [] v) - 10)
                      (re_sub pat_not_digit_plus [] v)) = 10) as H
      by (rewrite Hkey; exact Hlen).
    rewrite length_drop in H. lia. }
  apply Nat.leb_le in Hten. rewrite Hten.
  now rewrite bool_decide_eq_true_2 by exact Hkey.
Qed.

(** C2, as the code has it: a candidate whose cleaned form is ten digits and
    is the key of a verified number is replaced by the stored format of the
    last verified number with that key. *)
Theorem verified_match_uses_last (pre post : list str) (v num cand : str) :
  re_sub pat_not_digit_plus [] (strip num) = cand ->
  length cand = 10 ->
  forallb is_decimal cand = true ->
  index_key v = cand ->
  Forall (fun w => index_key w <> cand) post ->
  normalize_candidate (build_verified_digits (pre ++ v :: post)) num
  = Some (stored_format v).
Proof.
  intros Hclean Hlen Hdec Hkey Hpost.
  pose proof (build_verified_digits_last pre post v cand Hkey Hlen Hpost) as Hlook.
  destruct (index_key_digits v cand Hkey Hlen Hdec) as [_ Hdigits].
  unfold normalize_candidate. rewrite Hclean.
  destruct cand as [|c t]; [discriminate|].
  change (py "+") with ["+"%char].
  rewrite starts_with_digit
    by (reflexivity || (simpl in Hdec; now apply andb_prop in Hdec as [Hc _])).
  simpl negb. cbv iota.
  unfold add_country_code. rewrite Hlen, Hlook. simpl Nat.eqb. cbv iota.
  rewrite re_sub_not_digit, stored_format_digits.
  apply Nat.leb_le in Hdigits. now rewrite Hdigits.
Qed.

Lemma verified_match_uses_last_witness :
  normalize_candidate
    (build_verified_digits ([py "+1 415-555-1234"] ++ py "+91 41555 51234" :: [py "+442071838750"]))
    (py " (415) 555-1234")
  = Some (py "+914155551234").
Proof.
  apply (verified_match_uses_last [py "+1 415-555-1234"] [py "+442071838750"]
           (py "+91 41555 51234") (py " (415) 555-1234") (py "4155551234")).
  - reflexivity.
  - reflexivity.
  - reflexivity.
  - reflexivity.
  - repeat constructor; vm_compute; discriminate.
Defined.

(** C2, as the specification words it, fails when two verified numbers end
    in the same ten digits: the candidate matches the first of them and is
    replaced by the format of the second. *)
Lemma verified_match_not_any :
  let verified := [py "+14155551234"; py "+914155551234"] in
  let v := py "+14155551234" in
  let num := py "4155551234" in
  In v verified
  /\ length (re_sub pat_not_digit_plus [] (strip num)) = 10
  /\ forallb is_decimal (re_sub pat_not_digit_plus [] (strip num)) = true
  /\ last_10_digits v = re_sub pat_not_digit_plus [] (strip num)
  /\ normalize_candidate (build_verified_digits verified) num <> Some (stored_format v)
  /\ normalize_numbers verified num = [py "+914155551234"].
Proof.
  vm_compute. repeat split; auto. discriminate.
Qed.

(** ** Command Interpreter, with a backend *)

(** The rules that [parse_ai_command] falls back on give one of the three
    shapes, with or without the test for a digit in front. *)
Lemma fallback_is_parsed_command (guard : bool) (prompt : str) :
  exists d,
    match
      (if guard then
         match re_findall pat_digits_10 prompt with
         | n0 :: _ => Some (call_single n0)
         | [] => None
         end
       else None)
    with
    | Some d => Ok d
    | None =>
        if contains (py "start calling") (lower prompt)
           || contains (py "call all") (lower prompt)
        then Ok call_all
        else Ok (unknown (py "Could not parse command"))
    end = Ok d
    /\ is_parsed_command d.
Proof.
  unfold is_parsed_command.
  destruct guard; [destruct (re_findall pat_digits_10 prompt) as [|n0 ?]|];
    try (destruct (contains (py "start calling") (lower prompt)
                   || contains (py "call all") (lower prompt)));
    eexists; split; try reflexivity; eauto.
Qed.

(** C3, as the code has it: [parse_ai_command] always returns a dictionary
    and never raises.  When the backend answers and the first
    brace-delimited piece of its answer decodes, the decoded object is
    returned as it is, whatever it holds.  In every other case (no backend,
    a request that raises, an answer without such a piece, a piece that does
    not decode) the dictionary is one of the three shapes.  The line that
    the handler of the exception prints is taken to be printed. *)
Theorem parse_ai_command_answer (env : environment) (prompt : str) :
  (exists d, parse_ai_command env prompt = Ok d)
  /\ (forall backend content group0 d,
        ai_provider env = Some backend ->
        request_backend backend prompt = Ok content ->
        re_search pat_braces (strip content) = Some group0 ->
        json_loads env group0 = Ok d ->
        parse_ai_command env prompt = Ok d)
  /\ (ai_provider env = None
      \/ (exists backend,
            ai_provider env = Some backend
            /\ ((exists e, request_backend backend prompt = Raised e)
                \/ (exists content,
                      request_backend backend prompt = Ok content
                      /\ (re_search pat_braces (strip content) = None
                          \/ exists group0 e,
                               re_search pat_braces (strip content) = Some group0
                               /\ json_loads env group0 = Raised e)))) ->
      exists d, parse_ai_command env prompt = Ok d /\ is_parsed_command d).
Proof.
  assert (forall backend, ai_provider env = Some backend ->
            ask_backend env backend prompt = Ok None
            \/ (exists e, ask_backend env backend prompt = Raised e) ->
            exists d, parse_ai_command env prompt = Ok d /\ is_parsed_command d) as Hfail.
  { intros backend Hprov Hask. unfold parse_ai_command. rewrite Hprov.
    assert (try_except (ask_backend env backend prompt) (fun _ => Ok None) = Ok None) as ->
      by (destruct Hask as [-> | [e ->]]; reflexivity).
    cbn [mbind outcome_bind]. apply fallback_is_parsed_command. }
  assert (forall backend content group0 d,
            ai_provider env = Some backend ->
            request_backend backend prompt = Ok content ->
            re_search pat_braces (strip content) = Some group0 ->
            json_loads env group0 = Ok d ->
            parse_ai_command env prompt = Ok d) as Hdecoded.
  { intros backend content group0 d Hprov Hreq Hsearch Hload.
    unfold parse_ai_command, ask_backend, decode_reply.
    rewrite Hprov, Hreq. cbn [mbind outcome_bind]. rewrite Hsearch, Hload.
    reflexivity. }
  assert (ai_provider env = None ->
          exists d, parse_ai_command env prompt = Ok d /\ is_parsed_command d) as Hnone.
  { intros Hprov. unfold parse_ai_command. rewrite Hprov.
    apply fallback_is_parsed_command. }
  split; [|split].
  - destruct (ai_provider env) as [backend|] eqn:Hprov.
    + destruct (request_backend backend prompt) as [content|e] eqn:Hreq.
      * destruct (re_search pat_braces (strip content)) as [group0|] eqn:Hsearch.
        -- destruct (json_loads env group0) as [d|e] eqn:Hload.
           ++ exists d. now apply (Hdecoded backend content group0).
           ++ destruct (Hfail backend eq_refl) as (d & Hd & _); [|eauto].
              right. exists e. unfold ask_backend, decode_reply.
              rewrite Hreq. cbn [mbind outcome_bind]. now rewrite Hsearch, Hload.
        -- destruct (Hfail backend eq_refl) as (d & Hd & _); [|eauto].
           left. unfold ask_backend, decode_reply.
           rewrite Hreq. cbn [mbind outcome_bind]. now rewrite Hsearch.
      * destruct (Hfail backend eq_refl) as (d & Hd & _); [|eauto].
        right. exists e. unfold ask_backend. now rewrite Hreq.
    + destruct (Hnone eq_refl) as (d & Hd & _). eauto.
  - exact Hdecoded.
  - intros [Hprov | (backend & Hprov & Hcase)]; [now apply Hnone|].
    apply (Hfail backend Hprov). unfold ask_backend, decode_reply.
    destruct Hcase as [[e Hreq] | (content & Hreq & Hpiece)].
    + right. exists e. now rewrite Hreq.
    + rewrite Hreq. cbn [mbind outcome_bind].
      destruct Hpiece as [Hsearch | (group0 & e & Hsearch & Hload)].
      * left. now rewrite Hsearch.
      * right. exists e. now rewrite Hsearch, Hload.
Qed.

Lemma parse_ai_command_answer_witness :
  parse_ai_command inventive (py "Call 9876543210 now") = Ok hang_up
  /\ exists d, parse_ai_command unconfigured (py "hello there") = Ok d
               /\ is_parsed_command d.
Proof.
  split.
  - apply (proj1 (proj2 (parse_ai_command_answer inventive (py "Call 9876543210 now")))
             (gemini (fun _ => Ok hang_up_text)) hang_up_text hang_up_text hang_up);
      reflexivity.
  - apply (proj2 (proj2 (parse_ai_command_answer unconfigured (py "hello there")))).
    left. reflexivity.
Defined.

(** C3, as the specification words it, fails: a model that answers with an
    object whose only field is the action hang_up gets this object returned,
    and it is none of the three shapes. *)
Lemma parse_ai_command_other_object :
  request_backend (gemini (fun _ => Ok hang_up_text)) (py "Call 9876543210 now")
    = Ok hang_up_text
  /\ hang_up_text = py "{" ++ quoted (py "action") ++ py ": " ++ quoted (py "hang_up") ++ py "}"
  /\ json_loads inventive hang_up_text = Ok hang_up
  /\ parse_ai_command inventive (py "Call 9876543210 now") = Ok hang_up
  /\ ~ is_parsed_command hang_up.
Proof.
  repeat split; try (vm_compute; reflexivity).
  unfold is_parsed_command.
  intros [[n H] | [H | [e H]]]; vm_compute in H; discriminate.
Qed.

(** ** Call Dispatcher *)

(** [split] gives two parts or more when the separator occurs, so the test
    [len(parts) > 1] of the source always passes. *)
Lemma re_split_from_nonempty (m : matcher) (skip : nat) (cur s : str) :
  re_split_from m skip cur s <> [].
Proof.
  revert skip cur. induction s as [|c t IH]; intros skip cur; simpl; [discriminate|].
  destruct skip; [destruct (m (c :: t)) as [[|k]|]|]; try apply IH; discriminate.
Qed.

Lemma split_two_parts (sep s cur : str) :
  sep <> [] -> contains sep s = true ->
  exists part0 part1 rest, re_split_from (literal sep) 0 cur s = part0 :: part1 :: rest.
Proof.
  intros Hsep. revert cur.
  induction s as [|c t IH]; intros cur Hin.
  - destruct sep; [congruence | discriminate].
  - cbn [contains] in Hin. cbn [re_split_from]. unfold literal at 1.
    destruct (startswith sep (c :: t)) eqn:Hstart.
    + destruct sep as [|x sep']; [congruence|]. cbn [length].
      destruct (re_split_from (literal (x :: sep')) (length sep') [] t) as [|p1 rest] eqn:E.
      * now apply re_split_from_nonempty in E.
      * eauto.
    + apply IH. exact Hin.
Qed.

(** X15: The cleaning block of the dispatcher is the Error Sanitizer, but for
    texts that the sanitizer reads by its second rule. *)
Lemma failure_core_sanitized (e : str) :
  e <> [] ->
  contains twilio_preamble (strip_ansi_codes e) = true
  \/ contains (py "HTTP Error") (strip_ansi_codes e)
     && contains (py "Unable to create record:") (strip_ansi_codes e) = false ->
  failure_core e = clean_error_message e.
Proof.
  intros Hne Hcase. unfold failure_core, clean_error_message.
  destruct e as [|c t]; [congruence|].
  destruct (contains twilio_preamble (strip_ansi_codes (c :: t))) eqn:Hpre.
  - destruct (split_two_parts twilio_preamble (strip_ansi_codes (c :: t)) [])
      as (p0 & p1 & rest & Hsplit); [discriminate | exact Hpre |].
    unfold split, re_split. rewrite Hsplit. reflexivity.
  - destruct Hcase as [Hcase | Hcase]; [discriminate|].
    rewrite Hcase. reflexivity.
Qed.

(** Guidance is only ever added behind the message. *)
Lemma add_guidance_extends (error_msg : str) :
  exists guidance, add_guidance error_msg = error_msg ++ guidance.
Proof.
  unfold add_guidance.
  destruct (_ || _ || _); [|exists []; now rewrite app_nil_r].
  destruct (contains (py "source phone number") (lower error_msg)); [eauto|].
  destruct (re_search pat_phone error_msg); eauto.
Qed.

(** The dispatcher returns a result whatever the provider does. *)
Lemma make_twilio_call_returns (env : environment) (phone_number : str) :
  exists result,
    fst (make_twilio_call env phone_number) = Ok result
    /\ (CallResult.success result = false ->
        exists error, CallResult.error result = Some error).
Proof.
  unfold make_twilio_call.
  destruct (twilio_client env) as [client|]; simpl.
  - destruct (calls_create client phone_number _ _) as [call|e]; simpl; eexists;
      (split; [reflexivity|]); simpl; [discriminate | eauto].
  - eexists. split; [reflexivity|]. simpl. eauto.
Qed.

(** ** [POST /call] *)

(** The loop over the numbers never raises; it adds one entry per number,
    in order. *)
Lemma call_each_returns (env : environment) (phone_numbers : list str)
    (results : list CallAttempt.t) (w : world) :
  exists added w',
    call_each env phone_numbers results w = (Ok (results ++ added), w')
    /\ map CallAttempt.number added = phone_numbers
    /\ load_call_logs (disk w') = load_call_logs (disk w) ++ added.
Proof.
  revert results w.
  induction phone_numbers as [|number rest IH]; intros results w; cbn [call_each].
  - exists [], w. now rewrite !app_nil_r.
  - destruct (make_twilio_call_returns env number) as (result & Hres & _).
    destruct (make_twilio_call env number) as [r requests]. simpl in Hres. subst r.
    cbn [disk sent clock].
    match goal with
    | |- context [call_each env rest (results ++ [?log]) ?w1] =>
        destruct (IH (results ++ [log]) w1) as (added & w' & Hcall & Hnum & Hdisk);
        exists (log :: added), w'
    end.
    rewrite Hcall, <- app_assoc. repeat split.
    + simpl. now rewrite Hnum.
    + rewrite Hdisk. cbn [disk]. rewrite load_save_call_log, <- app_assoc. reflexivity.
Qed.

(** *** The handler over the file with any content *)

(** On the file of a log the loop and the handler are those on the log. *)
Lemma disk_call_each_of_log (env : environment) (phone_numbers : list str)
    (results : list CallAttempt.t) (w : world) :
  Disk.call_each env phone_numbers results (file_world w)
  = (fst (call_each env phone_numbers results w),
     file_world (snd (call_each env phone_numbers results w))).
Proof.
  revert results w.
  induction phone_numbers as [|number rest IH]; intros results w;
    cbn [call_each Disk.call_each]; [reflexivity|].
  destruct (make_twilio_call env number) as [[result|e] requests]; [|reflexivity].
  cbn [Disk.disk Disk.sent Disk.clock file_world disk sent clock].
  rewrite disk_save_of_log.
  match goal with
  | |- context [call_each env rest ?r ?w1] => rewrite <- (IH r w1)
  end.
  reflexivity.
Qed.

Lemma disk_initiate_calls_of_log (env : environment) (numbers : option str)
    (file : option UploadFile) (w : world) :
  Disk.initiate_calls env numbers file (file_world w)
  = (fst (initiate_calls env numbers file w),
     file_world (snd (initiate_calls env numbers file w))).
Proof.
  unfold Disk.initiate_calls, initiate_calls.
  destruct (request_numbers env numbers file) as [[|number rest]|e]; try reflexivity.
  rewrite disk_call_each_of_log.
  destruct (call_each env (number :: rest) [] w) as [[results|e] w']; reflexivity.
Qed.

(** When the file holds an array, or is missing or not decodable, the loop
    over the numbers never raises; it adds one entry per number, in
    order. *)
Lemma disk_call_each_returns (env : environment) (phone_numbers : list str)
    (results : list CallAttempt.t) (w : Disk.world) (logs : list jval) :
  Disk.load_call_logs (Disk.disk w) = JList logs ->
  exists added w',
    Disk.call_each env phone_numbers results w = (Ok (results ++ added), w')
    /\ map CallAttempt.number added = phone_numbers
    /\ Disk.load_call_logs (Disk.disk w') = JList (logs ++ map attempt_json added).
Proof.
  revert results w logs.
  induction phone_numbers as [|number rest IH]; intros results w logs Hload;
    cbn [Disk.call_each].
  - exists [], w. cbn [map]. now rewrite !app_nil_r.
  - destruct (make_twilio_call_returns env number) as (result & Hres & _).
    destruct (make_twilio_call env number) as [r requests]. simpl in Hres. subst r.
    cbn [Disk.disk Disk.sent Disk.clock].
    unfold Disk.save_call_log at 1. rewrite Hload.
    match goal with
    | |- context [Disk.call_each env rest (results ++ [?log]) ?w1] =>
        destruct (IH (results ++ [log]) w1 (logs ++ [attempt_json log]) eq_refl)
          as (added & w' & Hcall & Hnum & Hdisk);
        exists (log :: added), w'
    end.
    rewrite Hcall, <- app_assoc. repeat split.
    + cbn [map CallAttempt.number]. now rewrite Hnum.
    + rewrite Hdisk, <- app_assoc. reflexivity.
Qed.

(** Once the numbers of the request are there, the handler answers for
    them. *)
Lemma initiate_calls_for_numbers (env : environment) (numbers : option str)
    (file : option UploadFile) (w : Disk.world) (logs : list jval)
    (phone_numbers : list str) :
  Disk.load_call_logs (Disk.disk w) = JList logs ->
  request_numbers env numbers file = Ok phone_numbers ->
  answers_for env numbers file w phone_numbers.
Proof.
  intros Hload Hparse. unfold answers_for, Disk.initiate_calls. rewrite Hparse.
  destruct phone_numbers as [|number rest].
  - eexists _, w. split; [reflexivity|]. simpl. repeat split; try congruence; auto.
  - destruct (disk_call_each_returns env (number :: rest) [] w logs Hload)
      as (added & w' & Hcall & Hnum & _).
    rewrite Hcall. simpl app.
    eexists _, w'. split; [reflexivity|]. simpl. repeat split; try congruence; auto.
    intros _. exists added. auto.
Qed.

(** C10, as the code has it: the handler reads the upload when one with a
    name came, and the form field otherwise.  When the upload does not
    decode, it raises and answers nothing.  When the text of the upload
    decodes, or the form field is read, and the log file is missing, not
    decodable or holds an array, it answers for the numbers parsed from that
    text: [success] is true exactly when there is one, whatever became of
    the calls, and false, with the error text, exactly when there is
    none. *)
Theorem initiate_calls_answer (env : environment) (numbers : option str)
    (file : option UploadFile) (w : Disk.world) :
  (forall f e,
      named_upload file = Some f -> read_decode f = Raised e ->
      Disk.initiate_calls env numbers file w = (Raised e, w))
  /\ (forall logs,
        Disk.load_call_logs (Disk.disk w) = JList logs ->
        (forall f text,
            named_upload file = Some f -> read_decode f = Ok text ->
            answers_for env numbers file w (parse_phone_numbers env text))
        /\ (named_upload file = None ->
            answers_for env numbers file w (form_numbers env numbers))).
Proof.
  unfold named_upload. split; [|intros logs Hload; split].
  - intros f e Hfile Hread. unfold Disk.initiate_calls, request_numbers.
    destruct file as [g|]; [|discriminate].
    destruct (truthy (filename g)); [|discriminate].
    injection Hfile as ->. now rewrite Hread.
  - intros f text Hfile Hread. apply (initiate_calls_for_numbers _ _ _ _ logs _ Hload).
    unfold request_numbers. destruct file as [g|]; [|discriminate].
    destruct (truthy (filename g)); [|discriminate].
    injection Hfile as ->. now rewrite Hread.
  - intros Hfile. apply (initiate_calls_for_numbers _ _ _ _ logs _ Hload).
    unfold request_numbers, form_numbers.
    destruct file as [g|].
    + destruct (truthy (filename g)); [discriminate|].
      destruct numbers as [[|c t]|]; reflexivity.
    + destruct numbers as [[|c t]|]; reflexivity.
Qed.

Lemma initiate_calls_answer_witness :
  Disk.initiate_calls refusing (Some (py "4567890123")) (Some upload_not_utf8) fresh
  = (Raised (py "'utf-8' codec can't decode byte 0xff in position 0"), fresh)
  /\ answers_for refusing None (Some upload_of_scenario) fresh
       (parse_phone_numbers refusing scenario_text)
  /\ answers_for refusing (Some (py "4567890123")) None fresh
       (form_numbers refusing (Some (py "4567890123"))).
Proof.
  split; [|split].
  - apply (proj1 (initiate_calls_answer refusing (Some (py "4567890123"))
                    (Some upload_not_utf8) fresh) upload_not_utf8);
      reflexivity.
  - apply (proj1 (proj2 (initiate_calls_answer refusing None (Some upload_of_scenario)
                           fresh) [] eq_refl)
             upload_of_scenario scenario_text); reflexivity.
  - apply (proj2 (proj2 (initiate_calls_answer refusing (Some (py "4567890123"))
                           None fresh) [] eq_refl)).
    reflexivity.
Defined.

(** A request whose only call fails is answered with [success] true. *)
Lemma initiate_calls_failed_call :
  exists results w',
    Disk.initiate_calls refusing (Some (py "4567890123")) None fresh
    = (Ok (CallsResponse.mk true None (Some 1) (Some results)), w')
    /\ map CallAttempt.success results = [false]
    /\ Disk.sent w' = [py "+14567890123"].
Proof. eexists _, _. split; [vm_compute; reflexivity | split; reflexivity]. Qed.

(** C10, as worded, fails three times.  A named upload without a
    number is answered with [success] false although the form field of the
    same request holds a valid number.  An upload that does not decode gets
    no answer at all: the handler raises.  And with a log file that holds a
    JSON object, a request with a valid number gets no answer either: the
    call is requested, then the append to the log raises. *)
Lemma initiate_calls_no_answer :
  parse_phone_numbers refusing (py "4567890123") = [py "+14567890123"]
  /\ Disk.initiate_calls refusing (Some (py "4567890123"))
       (Some upload_without_numbers) fresh
     = (Ok (CallsResponse.mk false (Some (py "No valid phone numbers provided"))
              None None), fresh)
  /\ Disk.initiate_calls refusing None (Some upload_not_utf8) fresh
     = (Raised (py "'utf-8' codec can't decode byte 0xff in position 0"), fresh)
  /\ Disk.initiate_calls refusing (Some (py "4567890123")) None object_in_file
     = (Raised (py "'dict' object has no attribute 'append'"),
        {| Disk.disk := Disk.holds (JDict []);
           Disk.sent := [py "+14567890123"];
           Disk.clock := 1 |}).
Proof. repeat split; vm_compute; reflexivity. Qed.

(** * Further properties *)

(** ** Characters and strings *)

Lemma digit_or_plus_not_space (c : ascii) :
  is_digit_or_plus c = true -> is_space c = false.
Proof.
  destruct c as [[] [] [] [] [] [] [] []]; vm_compute; congruence.
Qed.

Lemma digit_or_plus_not_separator (c : ascii) :
  is_digit_or_plus c = true -> is_separator c = false.
Proof.
  destruct c as [[] [] [] [] [] [] [] []]; vm_compute; congruence.
Qed.

Lemma filter_drop_while (p q : ascii -> bool) (s : str) :
  (forall c, p c = true -> q c = false) ->
  List.filter p (drop_while q s) = List.filter p s.
Proof.
  intros Hpq. induction s as [|c t IH]; simpl; [reflexivity|].
  destruct (q c) eqn:Hq; [|reflexivity].
  rewrite IH. destruct (p c) eqn:Hp; [|reflexivity].
  apply Hpq in Hp. congruence.
Qed.

(** Stripping takes away only white space. *)
Lemma filter_strip (p : ascii -> bool) (s : str) :
  (forall c, p c = true -> is_space c = false) ->
  List.filter p (strip s) = List.filter p s.
Proof.
  intros Hp. unfold strip, rstrip, lstrip.
  rewrite filter_rev, (filter_drop_while p is_space (rev _)) by exact Hp.
  rewrite filter_rev, rev_involutive.
  now apply filter_drop_while.
Qed.

Lemma drop_while_none (q : ascii -> bool) (s : str) :
  forallb (fun c => negb (q c)) s = true -> drop_while q s = s.
Proof.
  destruct s as [|c t]; simpl; [reflexivity|].
  intros [Hc _]%andb_prop. apply negb_true_iff in Hc. now rewrite Hc.
Qed.

Lemma forallb_rev (p : ascii -> bool) (s : str) :
  forallb p (rev s) = forallb p s.
Proof.
  induction s as [|c t IH]; simpl; [reflexivity|].
  rewrite forallb_app, IH. simpl. rewrite andb_true_r. apply andb_comm.
Qed.

Lemma strip_no_space (s : str) :
  forallb (fun c => negb (is_space c)) s = true -> strip s = s.
Proof.
  intros H. unfold strip, rstrip, lstrip.
  rewrite (drop_while_none _ s) by exact H.
  rewrite drop_while_none by (now rewrite forallb_rev).
  apply rev_involutive.
Qed.

Lemma forallb_impl (p q : ascii -> bool) (s : str) :
  (forall c, p c = true -> q c = true) ->
  forallb p s = true -> forallb q s = true.
Proof.
  intros Hpq. induction s as [|c t IH]; simpl; [reflexivity|].
  intros [Hc Ht]%andb_prop. now rewrite (Hpq _ Hc), IH.
Qed.

Lemma forallb_filter (p : ascii -> bool) (s : str) :
  forallb p (List.filter p s) = true.
Proof.
  induction s as [|c t IH]; simpl; [reflexivity|].
  destruct (p c) eqn:Hp; simpl; [now rewrite Hp|exact IH].
Qed.

(** ** Number Normalizer, candidate by candidate *)

(** The cleaned form of a candidate holds digits and plus signs only. *)
Lemma cleaned_form_chars (num : str) :
  forallb is_digit_or_plus (re_sub pat_not_digit_plus [] (strip num)) = true.
Proof. rewrite re_sub_not_digit_plus. apply forallb_filter. Qed.

Lemma count_digits_plus (s : str) :
  List.filter is_decimal ("+"%char :: s) = List.filter is_decimal s.
Proof. reflexivity. Qed.

(** X1: A candidate whose cleaned form has eleven digits and starts with [1]
    gets a plus sign in front, and nothing else is done to it, whatever the
    verified numbers are. *)
Theorem eleven_digits_get_plus (verified_digits : gmap str str) (num cand : str) :
  re_sub pat_not_digit_plus [] (strip num) = cand ->
  length cand = 11 ->
  forallb is_decimal cand = true ->
  startswith (py "1") cand = true ->
  normalize_candidate verified_digits num = Some (py "+" ++ cand).
Proof.
  intros Hclean Hlen Hdec Hone. unfold normalize_candidate. rewrite Hclean.
  destruct cand as [|c t]; [discriminate|].
  change (py "+") with ["+"%char].
  rewrite starts_with_digit
    by (reflexivity || (simpl in Hdec; now apply andb_prop in Hdec as [Hc _])).
  simpl negb. cbv iota.
  unfold add_country_code. rewrite Hlen, Hone. simpl Nat.eqb. cbv iota. simpl andb. cbv iota.
  rewrite re_sub_not_digit.
  change (py "+" ++ c :: t) with ("+"%char :: c :: t).
  rewrite count_digits_plus, (filter_all _ _ Hdec), Hlen. reflexivity.
Qed.

Lemma eleven_digits_get_plus_witness :
  normalize_candidate (build_verified_digits [py "+14155551234"]) (py " 1 (415) 555-1234 ")
  = Some (py "+" ++ py "14155551234").
Proof.
  apply (eleven_digits_get_plus _ (py " 1 (415) 555-1234 ") (py "14155551234"));
    reflexivity.
Defined.

(** X2: A candidate whose cleaned form starts with a plus sign is kept in that
    form when it has ten digits or more, and dropped otherwise; the verified
    numbers play no part. *)
Theorem plus_prefixed_passes (verified_digits : gmap str str) (num rest : str) :
  re_sub pat_not_digit_plus [] (strip num) = "+"%char :: rest ->
  normalize_candidate verified_digits num
  = if 10 <=? length (List.filter is_decimal rest)
    then Some ("+"%char :: rest) else None.
Proof.
  intros Hclean. unfold normalize_candidate. rewrite Hclean.
  change (startswith (py "+") ("+"%char :: rest)) with true. simpl negb. cbv iota.
  rewrite re_sub_not_digit, count_digits_plus. reflexivity.
Qed.

Lemma plus_prefixed_passes_witness :
  normalize_candidate (build_verified_digits [py "+442071838750"]) (py "+44 20 7183 8750")
  = Some (py "+442071838750")
  /\ normalize_candidate ∅ (py "+44 20 7183") = None.
Proof.
  split.
  - apply (plus_prefixed_passes _ (py "+44 20 7183 8750") (py "442071838750")).
    reflexivity.
  - apply (plus_prefixed_passes _ (py "+44 20 7183") (py "44207183")).
    reflexivity.
Defined.

(** X3: A candidate whose cleaned form has fewer than ten characters is always
    dropped. *)
Theorem short_candidate_dropped (verified_digits : gmap str str) (num : str) :
  length (re_sub pat_not_digit_plus [] (strip num)) < 10 ->
  normalize_candidate verified_digits num = None.
Proof.
  intros Hlen. unfold normalize_candidate.
  destruct (re_sub pat_not_digit_plus [] (strip num)) as [|c t] eqn:Hclean; [reflexivity|].
  assert (forall s, length s <= S (length (c :: t)) ->
                    List.filter is_decimal s = List.filter is_decimal (c :: t) ->
                    (10 <=? length (re_sub pat_not_digit [] s)) = false) as Hshort.
  { intros s _ Hs. rewrite re_sub_not_digit, Hs. apply Nat.leb_gt.
    pose proof (filter_length_le is_decimal (c :: t)). lia. }
  destruct (startswith (py "+") (c :: t)); simpl negb; cbv iota.
  - rewrite (Hshort (c :: t)); [reflexivity | lia | reflexivity].
  - unfold add_country_code.
    assert ((length (c :: t) =? 10) = false) as -> by (apply Nat.eqb_neq; lia).
    assert ((length (c :: t) =? 11) = false) as -> by (apply Nat.eqb_neq; lia).
    simpl andb. cbv iota.
    rewrite (Hshort (py "+" ++ c :: t)); [reflexivity | simpl; lia | reflexivity].
Qed.

Lemma short_candidate_dropped_witness :
  normalize_candidate (build_verified_digits [py "+14155551234"]) (py "555-1234") = None.
Proof.
  apply (short_candidate_dropped _ (py "555-1234")). vm_compute. lia.
Defined.

(** ** Number Normalizer, the whole list *)

Lemma normalize_candidate_digits (verified_digits : gmap str str) (num out : str) :
  normalize_candidate verified_digits num = Some out ->
  10 <= length (List.filter is_decimal out).
Proof.
  unfold normalize_candidate.
  destruct (re_sub pat_not_digit_plus [] (strip num)) as [|c t]; [discriminate|].
  match goal with
  | |- (if 10 <=? length (re_sub pat_not_digit [] ?x) then _ else _) = _ -> _ =>
      rewrite (re_sub_not_digit x);
      destruct (10 <=? length (List.filter is_decimal x)) eqn:Hten; [|discriminate]
  end.
  intros [= <-]. now apply Nat.leb_le.
Qed.

(** X4: Every number that the normaliser gives out has ten digits or more. *)
Theorem normalized_have_ten_digits (verified_numbers : list str) (text : str) :
  Forall (fun out => 10 <= length (List.filter is_decimal out))
    (normalize_numbers verified_numbers text).
Proof.
  apply Forall_forall. intros out Hin. unfold normalize_numbers in Hin.
  apply list_elem_of_omap in Hin as (num & _ & Hnum).
  exact (normalize_candidate_digits _ _ _ Hnum).
Qed.

Lemma normalize_candidate_no_index (num out : str) :
  normalize_candidate ∅ num = Some out ->
  startswith (py "+") out = true /\ forallb is_digit_or_plus out = true.
Proof.
  unfold normalize_candidate.
  pose proof (cleaned_form_chars num) as Hchars.
  destruct (re_sub pat_not_digit_plus [] (strip num)) as [|c t] eqn:Hclean; [discriminate|].
  destruct (startswith (py "+") (c :: t)) eqn:Hplus; simpl negb; cbv iota.
  - destruct (10 <=? _); [|discriminate]. intros [= <-]. auto.
  - unfold add_country_code. rewrite !lookup_empty.
    destruct (length (c :: t) =? 10);
      [|destruct ((length (c :: t) =? 11) && startswith (py "1") (c :: t));
        [|destruct ((length (c :: t) =? 10) && startswith (py "9") (c :: t))]];
      (destruct (10 <=? _); [|discriminate]); intros [= <-];
      (split; [reflexivity|]);
      repeat match goal with
             | |- forallb is_digit_or_plus (?x :: c :: ?r) = true =>
                 change (forallb is_digit_or_plus (x :: c :: r))
                   with (is_digit_or_plus x && forallb is_digit_or_plus (c :: r))
             | |- forallb is_digit_or_plus (?x :: ?y :: c :: ?r) = true =>
                 change (forallb is_digit_or_plus (x :: y :: c :: r))
                   with (is_digit_or_plus x && (is_digit_or_plus y
                                               && forallb is_digit_or_plus (c :: r)))
             | |- forallb is_digit_or_plus (?x :: ?y :: ?z :: c :: ?r) = true =>
                 change (forallb is_digit_or_plus (x :: y :: z :: c :: r))
                   with (is_digit_or_plus x && (is_digit_or_plus y && (is_digit_or_plus z
                                               && forallb is_digit_or_plus (c :: r))))
             end;
      rewrite Hchars; reflexivity.
Qed.

(** X5: When no verified number is known, every number given out starts with a
    plus sign and holds digits and plus signs only. *)
Theorem normalized_shape_without_index (text : str) :
  Forall (fun out => startswith (py "+") out = true
                     /\ forallb is_digit_or_plus out = true)
    (normalize_numbers [] text).
Proof.
  apply Forall_forall. intros out Hin. unfold normalize_numbers in Hin.
  apply list_elem_of_omap in Hin as (num & _ & Hnum).
  exact (normalize_candidate_no_index _ _ Hnum).
Qed.

Lemma re_split_no_match (m : matcher) (cur s : str) :
  (forall c t, m (c :: t) = None \/ m (c :: t) = Some 0 \/
               exists k, m (c :: t) = Some (S k) /\ forallb is_digit_or_plus [c] = false) ->
  forallb is_digit_or_plus s = true ->
  re_split_from m 0 cur s = [rev cur ++ s].
Proof.
  intros Hm. revert cur. induction s as [|c t IH]; intros cur Hs; simpl.
  - now rewrite app_nil_r.
  - simpl in Hs. apply andb_prop in Hs as [Hc Ht].
    destruct (Hm c t) as [-> | [-> | (k & _ & Hk)]].
    + rewrite IH by exact Ht. simpl. now rewrite <- app_assoc.
    + rewrite IH by exact Ht. simpl. now rewrite <- app_assoc.
    + simpl in Hk. rewrite Hc in Hk. discriminate.
Qed.

Lemma pat_separators_head (c : ascii) (t : str) :
  pat_separators (c :: t) = None
  \/ pat_separators (c :: t) = Some 0
  \/ exists k, pat_separators (c :: t) = Some (S k) /\ forallb is_digit_or_plus [c] = false.
Proof.
  unfold pat_separators, run. cbn [take_while].
  destruct (is_separator c) eqn:Hsep; [|auto].
  right. right. eexists. split; [reflexivity|].
  simpl. rewrite andb_true_r.
  destruct (is_digit_or_plus c) eqn:Hc; [|reflexivity].
  apply digit_or_plus_not_separator in Hc. congruence.
Qed.

(** A text in the shape of an output is a single candidate and comes out
    as it is. *)
Lemma normalize_output_shape (verified_numbers : list str) (out : str) :
  startswith (py "+") out = true ->
  forallb is_digit_or_plus out = true ->
  10 <= length (List.filter is_decimal out) ->
  normalize_numbers verified_numbers out = [out].
Proof.
  intros Hplus Hchars Hten. unfold normalize_numbers, re_split.
  rewrite (re_split_no_match pat_separators [] out pat_separators_head Hchars).
  simpl rev. simpl app.
  assert (re_sub pat_not_digit_plus [] (strip out) = out) as Hclean.
  { rewrite strip_no_space
      by (eapply forallb_impl; [|exact Hchars];
          intros c Hc; now rewrite (digit_or_plus_not_space c Hc)).
    rewrite re_sub_not_digit_plus. now apply filter_all. }
  destruct out as [|c t]; [discriminate|].
  change (py "+") with ["+"%char] in Hplus. cbn [startswith] in Hplus.
  destruct (ascii_dec "+" c) as [<-|]; [|discriminate].
  cbn [omap list_omap]. unfold normalize_candidate. rewrite Hclean.
  change (startswith (py "+") ("+"%char :: t)) with true. simpl negb. cbv iota.
  rewrite re_sub_not_digit.
  rewrite count_digits_plus in Hten |- *. apply Nat.leb_le in Hten. rewrite Hten.
  reflexivity.
Qed.

(** X6: Normalising is idempotent on what it gives out without verified
    numbers: each such number, given back as a text, comes out as the one
    number it is, whatever the verified numbers are then. *)
Theorem normalize_again (verified_numbers : list str) (text : str) :
  Forall (fun out => normalize_numbers verified_numbers out = [out])
    (normalize_numbers [] text).
Proof.
  apply Forall_forall. intros out Hin. unfold normalize_numbers in Hin.
  apply list_elem_of_omap in Hin as (num & _ & Hnum).
  destruct (normalize_candidate_no_index _ _ Hnum) as [Hplus Hchars].
  apply normalize_output_shape; auto.
  exact (normalize_candidate_digits _ _ _ Hnum).
Qed.

(** *** The index of verified numbers *)

Lemma index_key_length (v : str) :
  10 <= length (re_sub pat_not_digit_plus [] v) -> length (index_key v) = 10.
Proof. intros H. unfold index_key, last_n. rewrite length_drop. lia. Qed.

Lemma index_fold_sound (verified_numbers : list str) (m : gmap str str) (k s : str) :
  foldl index_verified m verified_numbers !! k = Some s ->
  m !! k = Some s
  \/ exists v, v ∈ verified_numbers
               /\ 10 <= length (re_sub pat_not_digit_plus [] v)
               /\ index_key v = k /\ s = stored_format v.
Proof.
  revert m. induction verified_numbers as [|v vs IH]; intros m; simpl; [auto|].
  intros H. apply IH in H as [H | (w & Hw & Hrest)].
  - rewrite index_verified_lookup in H.
    destruct (10 <=? length (re_sub pat_not_digit_plus [] v)) eqn:Hten; simpl in H; [|auto].
    case_bool_decide as Hk; [|auto].
    injection H as <-. right. exists v. apply Nat.leb_le in Hten.
    repeat split; auto. constructor.
  - right. exists w. split; [now constructor | exact Hrest].
Qed.

(** X7: Every entry of the index stands for a verified number: its key has ten
    characters and is the end of that number's digits-and-plus form, its
    value is that number without spaces and dashes. *)
Theorem index_entries_sound (verified_numbers : list str) (k s : str) :
  build_verified_digits verified_numbers !! k = Some s ->
  length k = 10
  /\ exists v, v ∈ verified_numbers /\ index_key v = k /\ s = stored_format v.
Proof.
  intros H. apply index_fold_sound in H as [H | (v & Hv & Hten & Hkey & Hs)].
  - rewrite lookup_empty in H. discriminate.
  - split; [rewrite <- Hkey; now apply index_key_length | eauto].
Qed.

Lemma index_entries_sound_witness :
  length (py "4155551234") = 10
  /\ exists v, v ∈ [py "+1 415-555-1234"; py "12345"]
               /\ index_key v = py "4155551234"
               /\ py "+14155551234" = stored_format v.
Proof.
  apply (index_entries_sound [py "+1 415-555-1234"; py "12345"]).
  reflexivity.
Defined.

(** X8: When no client is configured, or the listing of caller ids raises, the
    normaliser works as with no verified number at all. *)
Theorem parse_phone_numbers_without_listing (env : environment) (text : str) :
  twilio_client env = None
  \/ (exists client e, twilio_client env = Some client
                       /\ outgoing_caller_ids_list client = Raised e) ->
  parse_phone_numbers env text = normalize_numbers [] text
  /\ Forall (fun out => startswith (py "+") out = true) (parse_phone_numbers env text).
Proof.
  intros H.
  assert (get_verified_numbers env = []) as Hnone.
  { unfold get_verified_numbers.
    destruct H as [-> | (client & e & -> & ->)]; reflexivity. }
  unfold parse_phone_numbers. rewrite Hnone. split; [reflexivity|].
  apply Forall_forall. intros out Hin. unfold normalize_numbers in Hin.
  apply list_elem_of_omap in Hin as (num & _ & Hnum).
  apply (normalize_candidate_no_index _ _ Hnum).
Qed.

Lemma parse_phone_numbers_without_listing_witness :
  parse_phone_numbers unconfigured scenario_text = normalize_numbers [] scenario_text
  /\ Forall (fun out => startswith (py "+") out = true)
       (parse_phone_numbers unconfigured scenario_text).
Proof.
  apply (parse_phone_numbers_without_listing unconfigured scenario_text).
  left. reflexivity.
Defined.

(** *** Separators *)

Section Separators.

(** What is done with each piece; the empty piece gives nothing. *)
Variable f : str -> option str.
Hypothesis f_empty : f [] = None.

Lemma re_split_skip (m : matcher) (k : nat) (cur s : str) :
  k <= length s ->
  re_split_from m k cur s = re_split_from m 0 cur (drop k s).
Proof.
  revert k. induction s as [|c t IH]; intros [|k] Hk; simpl in *; try reflexivity; try lia.
  apply IH. lia.
Qed.

Lemma drop_run (p : ascii -> bool) (s : str) :
  drop (run p s) s = drop_while p s.
Proof.
  unfold run. induction s as [|c t IH]; simpl; [reflexivity|].
  destruct (p c); simpl; [exact IH | reflexivity].
Qed.

Lemma run_le (p : ascii -> bool) (s : str) : run p s <= length s.
Proof.
  unfold run. induction s as [|c t IH]; simpl; [lia|].
  destruct (p c); simpl; lia.
Qed.

Lemma split_at_separator (c : ascii) (cur t : str) :
  is_separator c = true ->
  re_split_from pat_separators 0 cur (c :: t)
  = rev cur :: re_split_from pat_separators 0 [] (drop_while is_separator t).
Proof.
  intros Hc. cbn [re_split_from]. unfold pat_separators at 1, run. cbn [take_while].
  rewrite Hc. cbn [length]. fold (run is_separator t).
  rewrite re_split_skip by apply run_le. now rewrite drop_run.
Qed.

Lemma split_at_other (c : ascii) (cur t : str) :
  is_separator c = false ->
  re_split_from pat_separators 0 cur (c :: t)
  = re_split_from pat_separators 0 (c :: cur) t.
Proof.
  intros Hc. cbn [re_split_from]. unfold pat_separators at 1, run. cbn [take_while].
  now rewrite Hc.
Qed.

Lemma split_leading_separators (s : str) :
  omap f (re_split_from pat_separators 0 [] s)
  = omap f (re_split_from pat_separators 0 [] (drop_while is_separator s)).
Proof.
  destruct s as [|c t]; [reflexivity|]. cbn [drop_while].
  destruct (is_separator c) eqn:Hc; [|reflexivity].
  rewrite split_at_separator by exact Hc. cbn [omap list_omap rev].
  now rewrite f_empty.
Qed.

Lemma drop_while_app (t b : str) (sep : ascii) :
  is_separator sep = true ->
  drop_while is_separator (t ++ sep :: b)
  = match drop_while is_separator t with
    | [] => drop_while is_separator b
    | t' => t' ++ sep :: b
    end.
Proof.
  intros Hsep. induction t as [|c t IH]; simpl.
  - now rewrite Hsep.
  - destruct (is_separator c); [exact IH | reflexivity].
Qed.

Lemma drop_while_length (p : ascii -> bool) (s : str) :
  length (drop_while p s) <= length s.
Proof.
  induction s as [|c t IH]; simpl; [lia|]. destruct (p c); simpl; lia.
Qed.

Lemma split_app (n : nat) (a b cur : str) (sep : ascii) :
  length a <= n ->
  is_separator sep = true ->
  omap f (re_split_from pat_separators 0 cur (a ++ sep :: b))
  = omap f (re_split_from pat_separators 0 cur a)
    ++ omap f (re_split_from pat_separators 0 [] b).
Proof.
  intros Hn Hsep. revert a cur Hn.
  induction n as [|n IH]; intros a cur Hn.
  - destruct a; [|simpl in Hn; lia]. simpl app.
    rewrite split_at_separator by exact Hsep.
    cbn [re_split_from omap list_omap].
    rewrite <- split_leading_separators.
    destruct (f (rev cur)); reflexivity.
  - destruct a as [|c t].
    + simpl app. rewrite split_at_separator by exact Hsep.
      cbn [re_split_from omap list_omap].
      rewrite <- split_leading_separators.
      destruct (f (rev cur)); reflexivity.
    + simpl in Hn. rewrite <- app_comm_cons.
      destruct (is_separator c) eqn:Hc.
      * rewrite !split_at_separator by exact Hc.
        rewrite drop_while_app by exact Hsep.
        pose proof (drop_while_length is_separator t) as Hlen.
        destruct (drop_while is_separator t) as [|c' t'] eqn:Ht.
        -- cbn [re_split_from omap list_omap rev]. rewrite f_empty.
           rewrite <- split_leading_separators.
           destruct (f (rev cur)); reflexivity.
        -- cbn [omap list_omap].
           rewrite (IH (c' :: t') []) by lia.
           destruct (f (rev cur)); reflexivity.
      * rewrite !split_at_other by exact Hc. apply IH. lia.
Qed.

End Separators.

Lemma normalize_candidate_empty (verified_digits : gmap str str) :
  normalize_candidate verified_digits [] = None.
Proof. reflexivity. Qed.

(** X9: The text is read piece by piece: normalising two texts joined by a
    comma, a line feed or a carriage return gives the numbers of the first
    followed by the numbers of the second. *)
Theorem normalize_joined (verified_numbers : list str) (a b : str) (sep : ascii) :
  is_separator sep = true ->
  normalize_numbers verified_numbers (a ++ sep :: b)
  = normalize_numbers verified_numbers a ++ normalize_numbers verified_numbers b.
Proof.
  intros Hsep. unfold normalize_numbers, re_split.
  apply (split_app _ (normalize_candidate_empty _) (length a)); auto.
Qed.

Lemma normalize_joined_witness :
  normalize_numbers [] (py "123, 4567890123" ++ LF :: py "+442071838750")
  = normalize_numbers [] (py "123, 4567890123") ++ normalize_numbers [] (py "+442071838750").
Proof.
  apply (normalize_joined [] (py "123, 4567890123") (py "+442071838750") LF).
  reflexivity.
Defined.

(** ** Error Sanitizer: escape sequences *)

Lemma re_sub_skip (m : matcher) (repl : str) (k : nat) (s : str) :
  k <= length s ->
  re_sub_from m repl k s = re_sub_from m repl 0 (drop k s).
Proof.
  revert k. induction s as [|c t IH]; intros [|k] Hk; simpl in *; try reflexivity; try lia.
  apply IH. lia.
Qed.

Lemma re_sub_match (m : matcher) (repl : str) (c : ascii) (t : str) (k : nat) :
  m (c :: t) = Some (S k) -> k <= length t ->
  re_sub m repl (c :: t) = repl ++ re_sub m repl (drop k t).
Proof.
  intros Hm Hk. unfold re_sub. cbn [re_sub_from]. rewrite Hm.
  now rewrite re_sub_skip.
Qed.

Lemma run_app_stop (p : ascii -> bool) (l : str) (x : ascii) (r : str) :
  forallb p l = true -> p x = false -> run p (l ++ x :: r) = length l.
Proof.
  intros Hl Hx. unfold run. induction l as [|c t IH]; simpl.
  - now rewrite Hx.
  - simpl in Hl. apply andb_prop in Hl as [Hc Ht]. rewrite Hc. simpl. now rewrite IH.
Qed.

Lemma pat_ansi_escape_needs_escape (c : ascii) (t : str) :
  is_char 27 c = false -> pat_ansi_escape (c :: t) = None.
Proof.
  intros Hc. unfold pat_ansi_escape. destruct t; [reflexivity|]. now rewrite Hc.
Qed.

(** A text without the escape character goes through unchanged. *)
Lemma strip_ansi_codes_plain (s : str) :
  existsb (is_char 27) s = false -> strip_ansi_codes s = s.
Proof.
  unfold strip_ansi_codes, re_sub.
  induction s as [|c t IH]; cbn [re_sub_from existsb]; [reflexivity|].
  intros [Hc Ht]%orb_false_elim.
  rewrite pat_ansi_escape_needs_escape by exact Hc. now rewrite IH.
Qed.

(** X10: A control sequence (the escape character, a bracket, parameters in
    [0-?], intermediates in [ -/], one final character in [@-~]) is taken
    out whole, whatever follows it; the colour codes are of this form. *)
Theorem control_sequence_removed (params inter : str) (final : ascii) (rest : str) :
  forallb (in_range 48 63) params = true ->
  forallb (in_range 32 47) inter = true ->
  in_range 64 126 final = true ->
  strip_ansi_codes (ESC :: "["%char :: params ++ inter ++ final :: rest)
  = strip_ansi_codes rest.
Proof.
  intros Hparams Hinter Hfinal.
  assert (in_range 48 63 final = false /\ in_range 32 47 final = false) as [Hf1 Hf2].
  { revert Hfinal. destruct final as [[] [] [] [] [] [] [] []]; vm_compute; auto. }
  assert (run (in_range 48 63) (params ++ inter ++ final :: rest) = length params) as Hrun1.
  { destruct inter as [|i inter'].
    - now apply run_app_stop.
    - simpl app. apply run_app_stop; [exact Hparams|].
      simpl in Hinter. apply andb_prop in Hinter as [Hi _].
      revert Hi. destruct i as [[] [] [] [] [] [] [] []]; vm_compute; auto. }
  assert (run (in_range 32 47) (inter ++ final :: rest) = length inter) as Hrun2
    by now apply run_app_stop.
  assert (pat_ansi_escape (ESC :: "["%char :: params ++ inter ++ final :: rest)
          = Some (S (2 + length params + length inter))) as Hmatch.
  { unfold pat_ansi_escape.
    change (negb (is_char 27 ESC)) with false. cbv iota.
    change (in_range 64 90 "[" || in_range 92 95 "[") with false. cbv iota.
    change (is_char 91 "[") with true. cbv iota.
    rewrite Hrun1, drop_app_length, Hrun2.
    rewrite <- drop_drop, drop_app_length, drop_app_length, Hfinal.
    f_equal. lia. }
  unfold strip_ansi_codes.
  rewrite (re_sub_match _ _ _ _ _ Hmatch)
    by (simpl; rewrite !length_app; simpl; lia).
  simpl app at 1. f_equal.
  change (drop (2 + length params + length inter)
            ("["%char :: params ++ inter ++ final :: rest))
    with (drop (S (length params + length inter)) (params ++ inter ++ final :: rest)).
  replace (params ++ inter ++ final :: rest)
    with ((params ++ inter ++ [final]) ++ rest)
    by (rewrite <- !app_assoc; reflexivity).
  replace (S (length params + length inter))
    with (length (params ++ inter ++ [final]))
    by (rewrite !length_app; simpl; lia).
  apply drop_app_length.
Qed.

Lemma control_sequence_removed_witness :
  strip_ansi_codes (ESC :: "["%char :: py "1;31" ++ [] ++ "m"%char :: py "HTTP Error")
  = strip_ansi_codes (py "HTTP Error").
Proof.
  apply (control_sequence_removed (py "1;31") [] "m"%char (py "HTTP Error")); reflexivity.
Defined.

(** ** Error Sanitizer: what it leaves alone, and how long its result is *)

(** X11: A text without escape character, without the Twilio preamble and
    without [HTTP Error] is given back as it is. *)
Theorem plain_error_unchanged (error_text : str) :
  existsb (is_char 27) error_text = false ->
  contains twilio_preamble error_text = false ->
  contains (py "HTTP Error") error_text = false ->
  clean_error_message error_text = error_text.
Proof.
  intros Hesc Hpre Hhttp. unfold clean_error_message.
  destruct error_text as [|c t]; [reflexivity|].
  rewrite (strip_ansi_codes_plain _ Hesc), Hpre, Hhttp. reflexivity.
Qed.

Lemma plain_error_unchanged_witness :
  clean_error_message (py "Twilio credentials not configured")
  = py "Twilio credentials not configured".
Proof.
  apply (plain_error_unchanged (py "Twilio credentials not configured")); reflexivity.
Defined.

Lemma re_sub_from_length (m : matcher) (repl : str) (k : nat) (s : str) :
  length repl <= 1 -> length (re_sub_from m repl k s) <= length s.
Proof.
  intros Hrepl. revert k. induction s as [|c t IH]; intros k; simpl; [lia|].
  destruct k as [|k].
  - destruct (m (c :: t)) as [[|j]|]; simpl; try (specialize (IH 0); lia).
    rewrite length_app. specialize (IH j). lia.
  - specialize (IH k). lia.
Qed.

Lemma strip_length (s : str) : length (strip s) <= length s.
Proof.
  unfold strip, rstrip, lstrip. rewrite length_rev.
  etransitivity; [apply drop_while_length|]. rewrite length_rev.
  apply drop_while_length.
Qed.

Lemma re_split_from_length (m : matcher) (k : nat) (cur s piece : str) :
  piece ∈ re_split_from m k cur s -> length piece <= length cur + length s.
Proof.
  revert k cur. induction s as [|c t IH]; intros k cur; simpl.
  - intros ->%list_elem_of_singleton. rewrite length_rev. lia.
  - destruct k as [|k]; [destruct (m (c :: t)) as [[|j]|]|].
    + intros H%IH. simpl in H. lia.
    + intros [-> | H%IH]%elem_of_cons; [rewrite length_rev|simpl in H]; lia.
    + intros H%IH. simpl in H. lia.
    + intros H%IH. lia.
Qed.

Lemma re_search_length (m : matcher) (s g : str) :
  re_search m s = Some g -> length g <= length s.
Proof.
  induction s as [|c t IH]; simpl.
  - destruct (m []); [|discriminate]. intros [= <-]. rewrite length_take. simpl. lia.
  - destruct (m (c :: t)).
    + intros [= <-]. rewrite length_take. simpl. lia.
    + intros H%IH. lia.
Qed.

Lemma second_rule_length (cleaned : str) :
  length
    (if contains (py "HTTP Error") cleaned
        && contains (py "Unable to create record:") cleaned then
       match re_search pat_unable_to_create cleaned with
       | Some group0 => re_sub pat_whitespace (py " ") (strip group0)
       | None => cleaned
       end
     else cleaned)
  <= length cleaned.
Proof.
  destruct (_ && _); [|lia].
  destruct (re_search pat_unable_to_create cleaned) as [g|] eqn:Hs; [|lia].
  apply re_search_length in Hs.
  assert (length (re_sub pat_whitespace (py " ") (strip g)) <= length (strip g)) as H1
    by (apply re_sub_from_length; simpl; lia).
  pose proof (strip_length g). lia.
Qed.

(** X12: The sanitizer never gives back more characters than it got. *)
Theorem clean_error_message_length (error_text : str) :
  length (clean_error_message error_text) <= length error_text.
Proof.
  unfold clean_error_message.
  destruct error_text as [|c t]; [reflexivity|].
  set (e := c :: t).
  assert (length (strip_ansi_codes e) <= length e) as Hansi
    by (apply re_sub_from_length; simpl; lia).
  assert (forall l : str, length l <= 1 -> length l <= 1) as Hid by auto.
  destruct (contains twilio_preamble (strip_ansi_codes e)) eqn:Hpre.
  - destruct (split twilio_preamble (strip_ansi_codes e)) as [|p0 [|p1 rest]] eqn:Hsplit.
    + pose proof (second_rule_length (strip_ansi_codes e)). lia.
    + pose proof (second_rule_length (strip_ansi_codes e)). lia.
    + assert (length p1 <= length (strip_ansi_codes e)) as Hp1.
      { assert (p1 ∈ split twilio_preamble (strip_ansi_codes e)) as Hin
          by (rewrite Hsplit; do 2 constructor).
        apply re_split_from_length in Hin. simpl in Hin. lia. }
      repeat match goal with
             | |- context [strip ?x] =>
                 lazymatch goal with
                 | _ : length (strip x) <= length x |- _ => fail
                 | _ => pose proof (strip_length x)
                 end
             | |- context [re_sub ?m [] ?x] =>
                 lazymatch goal with
                 | _ : length (re_sub m [] x) <= length x |- _ => fail
                 | _ => assert (length (re_sub m [] x) <= length x)
                          by (apply re_sub_from_length; simpl; lia)
                 end
             end.
      lia.
  - pose proof (second_rule_length (strip_ansi_codes e)). lia.
Qed.

Lemma failure_core_sanitized_witness :
  failure_core refusal_text = clean_error_message refusal_text.
Proof.
  apply (failure_core_sanitized refusal_text).
  - discriminate.
  - left. reflexivity.
Defined.

(** ** Substrings *)

Lemma startswith_app (p q s : str) :
  startswith (p ++ q) s = true ->
  startswith p s = true /\ startswith q (drop (length p) s) = true.
Proof.
  revert s. induction p as [|a p IH]; intros s; simpl.
  - intros H. split; [reflexivity|]. now rewrite drop_0.
  - destruct s as [|b s]; [discriminate|].
    destruct (ascii_dec a b); [|discriminate]. apply IH.
Qed.

Lemma contains_drop (p : str) (n : nat) (s : str) :
  contains p (drop n s) = true -> contains p s = true.
Proof.
  revert n. induction s as [|c t IH]; intros n.
  - now rewrite drop_nil.
  - destruct n as [|n]; [now rewrite drop_0|].
    simpl drop. intros H%IH. cbn [contains]. rewrite H. apply orb_true_r.
Qed.

Lemma startswith_contains (p s : str) :
  startswith p s = true -> contains p s = true.
Proof. intros H. destruct s; cbn [contains]; now rewrite H. Qed.

(** A text that holds [a ++ b ++ c] holds [b]. *)
Lemma contains_middle (a b c s : str) :
  contains (a ++ b ++ c) s = true -> contains b s = true.
Proof.
  induction s as [|x t IH]; cbn [contains].
  - rewrite orb_false_r. intros H.
    apply startswith_app in H as [_ H]. apply startswith_app in H as [H _].
    apply (contains_drop b (length a) []). now apply startswith_contains.
  - intros [H | H]%orb_prop.
    + apply startswith_app in H as [_ H]. apply startswith_app in H as [H _].
      apply (contains_drop b (length a) (x :: t)). now apply startswith_contains.
    + fold (contains b (x :: t)). apply (contains_drop b 1 (x :: t)). simpl drop.
      now apply IH.
Qed.

Lemma not_contains_middle (a b c s : str) :
  contains b s = false -> contains (a ++ b ++ c) s = false.
Proof.
  intros Hb. destruct (contains (a ++ b ++ c) s) eqn:H; [|reflexivity].
  apply contains_middle in H. congruence.
Qed.

(** ** Command Interpreter: the rules of the fall-back *)

Lemma take_run (p : ascii -> bool) (s : str) :
  take (run p s) s = take_while p s.
Proof.
  unfold run. induction s as [|c t IH]; simpl; [reflexivity|].
  destruct (p c); simpl; [now rewrite IH | reflexivity].
Qed.

Lemma take_while_all (p : ascii -> bool) (s : str) :
  forallb p (take_while p s) = true.
Proof.
  induction s as [|c t IH]; simpl; [reflexivity|].
  destruct (p c) eqn:Hp; simpl; [now rewrite Hp | reflexivity].
Qed.

Lemma startswith_take (n : nat) (s : str) : startswith (take n s) s = true.
Proof.
  revert n. induction s as [|c t IH]; intros [|n]; simpl; try reflexivity.
  destruct (ascii_dec c c); [apply IH | congruence].
Qed.

(** The first run of ten digits or more, as [re.findall] gives it. *)
Lemma first_digit_run (n0 : str) (more : list str) (prompt : str) :
  re_findall pat_digits_10 prompt = n0 :: more ->
  forallb is_decimal n0 = true /\ 10 <= length n0 /\ contains n0 prompt = true.
Proof.
  unfold re_findall. induction prompt as [|c t IH]; [discriminate|].
  cbn [re_findall_from]. unfold pat_digits_10 at 1.
  destruct (10 <=? run is_decimal (c :: t)) eqn:Hten.
  - apply Nat.leb_le in Hten.
    destruct (run is_decimal (c :: t)) as [|k] eqn:Hrun; [lia|].
    rewrite <- Hrun, take_run.
    assert (forallb is_decimal (take_while is_decimal (c :: t)) = true
            /\ 10 <= length (take_while is_decimal (c :: t))
            /\ contains (take_while is_decimal (c :: t)) (c :: t) = true) as Hw.
    { repeat split.
      - apply take_while_all.
      - fold (run is_decimal (c :: t)). lia.
      - apply startswith_contains. rewrite <- take_run. apply startswith_take. }
    clear IH. revert Hw. generalize (take_while is_decimal (c :: t)) as w.
    intros w Hw [= <- _]. exact Hw.
  - intros H. apply IH in H as (H1 & H2 & H3). repeat split; auto.
    cbn [contains]. rewrite H3. apply orb_true_r.
Qed.

Lemma contains_char (n0 s : str) (p : ascii -> bool) :
  n0 <> [] -> forallb p n0 = true -> contains n0 s = true -> existsb p s = true.
Proof.
  intros Hne Hall. destruct n0 as [|d n0]; [congruence|].
  simpl in Hall. apply andb_prop in Hall as [Hd _].
  induction s as [|c t IH]; cbn [contains existsb].
  - discriminate.
  - intros [H | H]%orb_prop.
    + cbn [startswith] in H. destruct (ascii_dec d c) as [<-|]; [|discriminate].
      now rewrite Hd.
    + rewrite IH by exact H. apply orb_true_r.
Qed.

(** X17: The number of a call_single answer of the rules is taken from the
    command: ten decimal digits or more, found in the command as they are.
    This holds with no backend, and with a backend that fails. *)
Theorem fallback_number_from_command (env : environment) (command number : str) :
  ai_provider env = None
  \/ (exists backend e, ai_provider env = Some backend
                        /\ request_backend backend command = Raised e) ->
  parse_ai_command env command = Ok (call_single number) ->
  forallb is_decimal number = true
  /\ 10 <= length number
  /\ contains number command = true
  /\ contains (py "call") (lower command) = true.
Proof.
  intros Hback. unfold parse_ai_command.
  assert (forall guard : bool,
             match
               (if guard then
                  match re_findall pat_digits_10 command with
                  | n0 :: _ => Some (call_single n0)
                  | [] => None
                  end
                else None)
             with
             | Some d => Ok d
             | None =>
                 if contains (py "start calling") (lower command)
                    || contains (py "call all") (lower command)
                 then Ok call_all
                 else Ok (unknown (py "Could not parse command"))
             end = Ok (call_single number) ->
             guard = true
             /\ exists more, re_findall pat_digits_10 command = number :: more) as Hrule.
  { intros [|].
    - destruct (re_findall pat_digits_10 command) as [|n0 more].
      + destruct (_ || _); discriminate.
      + intros [= <-]. eauto.
    - destruct (_ || _); discriminate. }
  destruct Hback as [-> | (backend & e & -> & Hraise)].
  - intros H. apply Hrule in H as [Hguard [more Hfind]].
    apply andb_prop in Hguard as [Hcall _].
    destruct (first_digit_run _ _ _ Hfind) as (H1 & H2 & H3). auto.
  - unfold ask_backend. rewrite Hraise. simpl.
    intros H. apply Hrule in H as [Hguard [more Hfind]].
    destruct (first_digit_run _ _ _ Hfind) as (H1 & H2 & H3). auto.
Qed.

Lemma fallback_number_from_command_witness :
  forallb is_decimal (py "9876543210") = true
  /\ 10 <= length (py "9876543210")
  /\ contains (py "9876543210") (py "Call 9876543210 now") = true
  /\ contains (py "call") (lower (py "Call 9876543210 now")) = true.
Proof.
  apply (fallback_number_from_command unconfigured (py "Call 9876543210 now")).
  - left. reflexivity.
  - reflexivity.
Defined.

(** X18: A command without the word call, in any case of letters, is not
    understood by the rules: the answer is unknown. *)
Theorem no_call_word_unknown (env : environment) (command : str) :
  ai_provider env = None ->
  contains (py "call") (lower command) = false ->
  parse_ai_command env command = Ok (unknown (py "Could not parse command")).
Proof.
  intros Hnone Hcall. unfold parse_ai_command. rewrite Hnone, Hcall.
  change (py "start calling") with (py "start " ++ py "call" ++ py "ing").
  change (py "call all") with ([] ++ py "call" ++ py " all").
  rewrite (not_contains_middle (py "start ") (py "call") (py "ing") _ Hcall).
  rewrite (not_contains_middle [] (py "call") (py " all") _ Hcall).
  reflexivity.
Qed.

Lemma no_call_word_unknown_witness :
  parse_ai_command unconfigured (py "please dial 9876543210")
  = Ok (unknown (py "Could not parse command")).
Proof.
  apply (no_call_word_unknown unconfigured (py "please dial 9876543210")); reflexivity.
Defined.

(** X19: The test for a digit that the rules make when no backend is configured
    changes nothing: a backend that raises, or whose answer holds no
    brace-delimited piece, or one that does not decode, leaves the answer
    that the interpreter gives with no backend at all. *)
Theorem backend_failure_as_no_backend (env env' : environment) (backend : ai_backend)
    (command : str) :
  ai_provider env = Some backend ->
  ai_provider env' = None ->
  ask_backend env backend command = Ok None
  \/ (exists e, ask_backend env backend command = Raised e) ->
  parse_ai_command env command = parse_ai_command env' command.
Proof.
  intros Hsome Hnone Hfail. unfold parse_ai_command. rewrite Hsome, Hnone.
  assert (try_except (ask_backend env backend command) (fun _ => Ok None) = Ok None) as ->
    by (destruct Hfail as [-> | [e ->]]; reflexivity).
  cbn [mbind outcome_bind].
  destruct (contains (py "call") (lower command)); cbn [andb]; [|reflexivity].
  destruct (existsb is_digit command) eqn:Hdigit; [reflexivity|].
  destruct (re_findall pat_digits_10 command) as [|n0 more] eqn:Hfind; [reflexivity|].
  destruct (first_digit_run _ _ _ Hfind) as (H1 & H2 & H3).
  assert (existsb is_digit command = true) as Hex.
  { apply (contains_char n0); auto.
    - destruct n0; [simpl in H2; lia | discriminate].
    - eapply forallb_impl; [|exact H1]. intros c Hc. unfold is_digit. now rewrite Hc. }
  congruence.
Qed.

Lemma backend_failure_as_no_backend_witness :
  parse_ai_command
    {| twilio_client := None; TWILIO_PHONE_NUMBER := None;
       ai_provider := Some (openai (fun _ _ => Raised (py "Connection error.")));
       getenv := getenv unconfigured; say_twiml := say_twiml unconfigured;
       json_loads := json_loads unconfigured;
       now_isoformat := now_isoformat unconfigured |}
    (py "Call 9876543210 now")
  = parse_ai_command unconfigured (py "Call 9876543210 now").
Proof.
  apply (backend_failure_as_no_backend _ unconfigured
           (openai (fun _ _ => Raised (py "Connection error.")))).
  - reflexivity.
  - reflexivity.
  - right. eexists. reflexivity.
Defined.

(** ** Call Dispatcher: guidance *)

Lemma guidance_test (error_msg : str) :
  contains (py "not yet verified") (lower error_msg)
  || contains (py "unverified") (lower error_msg)
  || contains (py "verified") (lower error_msg)
  = contains (py "verified") (lower error_msg).
Proof.
  destruct (contains (py "verified") (lower error_msg)) eqn:H.
  - apply orb_true_r.
  - change (py "not yet verified") with (py "not yet " ++ py "verified" ++ []).
    change (py "unverified") with (py "un" ++ py "verified" ++ []).
    now rewrite !(not_contains_middle _ _ _ _ H).
Qed.

Lemma add_guidance_grows (error_msg : str) :
  contains (py "verified") (lower error_msg) = true ->
  length error_msg < length (add_guidance error_msg).
Proof.
  intros H. unfold add_guidance. rewrite guidance_test, H.
  destruct (contains (py "source phone number") (lower error_msg)).
  - rewrite length_app. simpl. lia.
  - destruct (re_search pat_phone error_msg); rewrite !length_app; simpl; lia.
Qed.

(** X16: When the provider's call raises, the error of the result is the cleaned
    text of the exception and nothing more exactly when that text does not
    hold the word verified, in any case of letters; otherwise guidance is
    added behind it. *)
Theorem guidance_only_about_verification (env : environment) (client : Client)
    (phone_number e : str) :
  twilio_client env = Some client ->
  calls_create client phone_number (TWILIO_PHONE_NUMBER env) (call_twiml env) = Raised e ->
  (fst (make_twilio_call env phone_number)
   = Ok (CallResult.mk false None None (Some phone_number) (Some (failure_core e)))
   <-> contains (py "verified") (lower (failure_core e)) = false).
Proof.
  intros Hclient Hraise. unfold make_twilio_call. rewrite Hclient, Hraise.
  cbn [fst try_except mbind outcome_bind]. unfold describe_failure. split.
  - intros [= H].
    destruct (contains (py "verified") (lower (failure_core e))) eqn:Hv; [|reflexivity].
    apply add_guidance_grows in Hv. rewrite H in Hv. lia.
  - intros Hv. unfold add_guidance. now rewrite guidance_test, Hv.
Qed.

Lemma guidance_only_about_verification_witness :
  fst (make_twilio_call refusing (py "+14567890123"))
  = Ok (CallResult.mk false None None (Some (py "+14567890123"))
          (Some (failure_core refusal_text)))
  <-> contains (py "verified") (lower (failure_core refusal_text)) = false.
Proof.
  apply (guidance_only_about_verification refusing refusing_client); reflexivity.
Defined.

(** ** [POST /call]: what a request leaves behind *)









(** ** Call Log Store: composition *)

(** X22: The cleanup pass leaves a log without error texts as it is. *)
Theorem cleanup_without_errors (logs : list CallAttempt.t) :
  Forall (fun log => truthy (CallAttempt.error log) = false) logs ->
  cleanup_all_logs (stored logs) = (stored logs, length logs).
Proof.
  intros Hall. unfold cleanup_all_logs. cbn [load_call_logs].
  assert (map cleanup_log logs = logs) as ->; [|reflexivity].
  induction Hall as [|log logs Hlog _ IH]; simpl; [reflexivity|].
  rewrite IH. f_equal. unfold cleanup_log.
  destruct (CallAttempt.error log) as [[|c t]|]; try reflexivity. discriminate.
Qed.

Lemma cleanup_without_errors_witness :
  cleanup_all_logs
    (stored [CallAttempt.mk (py "+14567890123") (py "queued") true
               (py "2024-01-01T00:00:00") (Some (py "CA1")) None])
  = (stored [CallAttempt.mk (py "+14567890123") (py "queued") true
               (py "2024-01-01T00:00:00") (Some (py "CA1")) None], 1).
Proof. apply cleanup_without_errors. repeat constructor. Defined.


(** ** Checking a number against the verified caller ids *)

Lemma keep_digits_plus_strip (s : str) :
  re_sub pat_not_digit_plus [] (strip s) = re_sub pat_not_digit_plus [] s.
Proof.
  rewrite !re_sub_not_digit_plus. apply filter_strip, digit_or_plus_not_space.
Qed.

(** X24: A caller id of the provider's list, asked for as it is listed with its
    plus sign, is reported as verified. *)
Theorem listed_number_is_verified (env : environment) (client : Client)
    (verified : list str) (v : str) :
  twilio_client env = Some client ->
  outgoing_caller_ids_list client = Ok verified ->
  v ∈ verified ->
  startswith (py "+") (strip v) = true ->
  check_verification env v
  = Ok (VerificationResponse.mk 200 true None (Some (strip v)) (Some true)
          (Some verified) (Some (py "Verified"))).
Proof.
  intros Hclient Hlist Hin Hplus. unfold check_verification.
  rewrite Hclient, Hlist. cbn [mbind outcome_bind mret outcome_ret try_except].
  assert (cleaned_query v = strip v) as -> by (unfold cleaned_query; now rewrite Hplus).
  rewrite bool_decide_eq_true_2; [reflexivity|].
  rewrite keep_digits_plus_strip.
  apply list_elem_of_In, in_map, list_elem_of_In, Hin.
Qed.

Lemma listed_number_is_verified_witness :
  check_verification one_caller_id (py "+919876543210")
  = Ok (VerificationResponse.mk 200 true None (Some (strip (py "+919876543210")))
          (Some true) (Some [py "+91" ++ py "9876543210"]) (Some (py "Verified"))).
Proof.
  apply (listed_number_is_verified one_caller_id
           {| calls_create := fun to from_ twiml => Ok (py "CA1", py "queued");
              outgoing_caller_ids_list := Ok [py "+91" ++ py "9876543210"] |}).
  - reflexivity.
  - reflexivity.
  - repeat constructor.
  - reflexivity.
Defined.

(** A candidate of ten digits that the index knows is replaced by the
    entry, when the entry has ten digits or more. *)
Lemma matched_candidate (verified_digits : gmap str str) (num cand entry : str) :
  re_sub pat_not_digit_plus [] (strip num) = cand ->
  length cand = 10 ->
  forallb is_decimal cand = true ->
  verified_digits !! cand = Some entry ->
  10 <= length (List.filter is_decimal entry) ->
  normalize_candidate verified_digits num = Some entry.
Proof.
  intros Hclean Hlen Hdec Hlook Hdigits.
  unfold normalize_candidate. rewrite Hclean.
  destruct cand as [|c t]; [discriminate|].
  change (py "+") with ["+"%char].
  rewrite starts_with_digit
    by (reflexivity || (simpl in Hdec; now apply andb_prop in Hdec as [Hc _])).
  simpl negb. cbv iota.
  unfold add_country_code. rewrite Hlen, Hlook. simpl Nat.eqb. cbv iota.
  rewrite re_sub_not_digit.
  apply Nat.leb_le in Hdigits. now rewrite Hdigits.
Qed.

Lemma decimal_is_digit_or_plus (s : str) :
  forallb is_decimal s = true -> forallb is_digit_or_plus s = true.
Proof.
  apply forallb_impl. intros c Hc. unfold is_digit_or_plus. now rewrite Hc.
Qed.

Lemma stored_format_plain (v : str) :
  forallb is_digit_or_plus v = true -> stored_format v = v.
Proof.
  intros Hv. unfold stored_format.
  change (py "-") with ["-"%char]. change (py " ") with [" "%char].
  rewrite !replace_char_deletes.
  assert (forall x, is_digit_or_plus x = false ->
                    List.filter (is_not x) v = v) as Hkeep.
  { intros x Hx. apply filter_all. eapply forallb_impl; [|exact Hv].
    intros c Hc. unfold is_not. destruct (ascii_dec x c); [congruence | reflexivity]. }
  rewrite (Hkeep " "%char) by reflexivity. now apply Hkeep.
Qed.

(** X25: The two places that read the verified caller ids disagree on a number
    of ten digits typed without country code.  With the caller id
    [+91] followed by these digits as the only verified number, the
    normaliser turns the digits into that caller id, while the check puts
    [+1] in front and reports the number as not verified. *)
Theorem dialled_but_not_verified (env : environment) (client : Client) (cand : str) :
  twilio_client env = Some client ->
  outgoing_caller_ids_list client = Ok [py "+91" ++ cand] ->
  length cand = 10 ->
  forallb is_decimal cand = true ->
  parse_phone_numbers env cand = [py "+91" ++ cand]
  /\ exists message,
       check_verification env cand
       = Ok (VerificationResponse.mk 200 true None (Some (py "+1" ++ cand)) (Some false)
               (Some [py "+91" ++ cand]) (Some message)).
Proof.
  intros Hclient Hlist Hlen Hdec.
  pose proof (decimal_is_digit_or_plus _ Hdec) as Hchars.
  assert (forallb (fun c => negb (is_space c)) cand = true) as Hnospace.
  { eapply forallb_impl; [|exact Hchars].
    intros c Hc. now rewrite (digit_or_plus_not_space c Hc). }
  assert (re_sub pat_not_digit_plus [] (strip cand) = cand) as Hclean.
  { rewrite strip_no_space by exact Hnospace.
    rewrite re_sub_not_digit_plus. now apply filter_all. }
  assert (forallb is_digit_or_plus (py "+91" ++ cand) = true) as Hv
    by (rewrite forallb_app, Hchars; reflexivity).
  split.
  - unfold parse_phone_numbers, get_verified_numbers. rewrite Hclient, Hlist.
    unfold normalize_numbers, re_split.
    rewrite (re_split_no_match pat_separators [] cand pat_separators_head Hchars).
    simpl rev. simpl app. cbn [omap list_omap].
    rewrite (matched_candidate _ cand cand (py "+91" ++ cand)); auto.
    + replace (Some (py "+91" ++ cand))
        with (Some (stored_format (py "+91" ++ cand)))
        by (now rewrite stored_format_plain).
      apply (build_verified_digits_last [] []); auto.
      unfold index_key, last_n. rewrite re_sub_not_digit_plus, filter_all by exact Hv.
      rewrite length_app, Hlen. reflexivity.
    + change (py "+91" ++ cand) with ("+"%char :: "9"%char :: "1"%char :: cand).
      change (List.filter is_decimal ("+"%char :: "9"%char :: "1"%char :: cand))
        with ("9"%char :: "1"%char :: List.filter is_decimal cand).
      rewrite (filter_all _ _ Hdec). simpl. lia.
  - unfold check_verification. rewrite Hclient, Hlist.
    cbn [mbind outcome_bind mret outcome_ret try_except].
    assert (cleaned_query cand = py "+1" ++ cand) as ->.
    { unfold cleaned_query. rewrite (strip_no_space _ Hnospace).
      destruct cand as [|c t]; [discriminate|].
      change (py "+") with ["+"%char].
      rewrite starts_with_digit
        by (reflexivity || (simpl in Hdec; now apply andb_prop in Hdec as [Hc _])).
      simpl negb. cbv iota. now rewrite Hlen. }
    rewrite bool_decide_eq_false_2; [eexists; reflexivity|].
    cbn [map]. rewrite !re_sub_not_digit_plus.
    rewrite (filter_all _ _ Hv).
    rewrite filter_all by (rewrite forallb_app, Hchars; reflexivity).
    intros [H | H%elem_of_nil]%elem_of_cons; [discriminate | exact H].
Qed.

Lemma dialled_but_not_verified_witness :
  parse_phone_numbers one_caller_id (py "9876543210") = [py "+91" ++ py "9876543210"]
  /\ exists message,
       check_verification one_caller_id (py "9876543210")
       = Ok (VerificationResponse.mk 200 true None (Some (py "+1" ++ py "9876543210"))
               (Some false) (Some [py "+91" ++ py "9876543210"]) (Some message)).
Proof.
  apply (dialled_but_not_verified one_caller_id
           {| calls_create := fun to from_ twiml => Ok (py "CA1", py "queued");
              outgoing_caller_ids_list := Ok [py "+91" ++ py "9876543210"] |});
    reflexivity.
Defined.

(** ** [POST /ai-command] *)



(** X27: A call_all command does what [POST /call] does with the same [numbers]
    field and no file: whenever that handler succeeds, this one gives the
    same total and results and leaves the same world. *)
Theorem call_all_as_call_form (env : environment) (command : str)
    (numbers : option str) (w w' : world) (response : CallsResponse.t) :
  parse_ai_command env command = Ok call_all ->
  initiate_calls env numbers None w = (Ok response, w') ->
  CallsResponse.success response = true ->
  handle_ai_command env command numbers w
  = responded
      (Ok (AiResponse.mk true (Some (py "call_all")) None
             (CallsResponse.total response) (CallsResponse.results response) None None))
      w'.
Proof.
  intros Hparse Hcalls Hsuccess. unfold handle_ai_command. rewrite Hparse.
  change (dict_get call_all (py "action")) with (Some (JStr (py "call_all"))).
  change (equals_str (JStr (py "call_all")) (py "call_single")) with false.
  change (equals_str (JStr (py "call_all")) (py "call_all")) with true.
  cbv iota. unfold initiate_calls, request_numbers in Hcalls.
  destruct numbers as [[|c t]|];
    try (cbn [mret outcome_ret] in Hcalls; injection Hcalls as <- _; discriminate).
  cbn [mret outcome_ret] in Hcalls.
  destruct (parse_phone_numbers env (c :: t)) as [|n rest] eqn:Hnumbers;
    [injection Hcalls as <- _; discriminate|].
  destruct (call_each env (n :: rest) [] w) as [[results|e] w1];
    [|discriminate].
  injection Hcalls as <- <-. reflexivity.
Qed.

Lemma call_all_as_call_form_witness :
  exists response w',
    initiate_calls refusing (Some scenario_text) None
      {| disk := no_file; sent := []; clock := 0 |} = (Ok response, w')
    /\ handle_ai_command refusing (py "start calling all numbers") (Some scenario_text)
         {| disk := no_file; sent := []; clock := 0 |}
       = responded
           (Ok (AiResponse.mk true (Some (py "call_all")) None
                  (CallsResponse.total response) (CallsResponse.results response)
                  None None))
           w'.
Proof.
  destruct (initiate_calls refusing (Some scenario_text) None
              {| disk := no_file; sent := []; clock := 0 |}) as [[response|e] w'] eqn:H;
    [|vm_compute in H; discriminate].
  exists response, w'. split; [reflexivity|].
  apply (call_all_as_call_form refusing (py "start calling all numbers")
           (Some scenario_text) _ w' response).
  - reflexivity.
  - exact H.
  - vm_compute in H. now injection H as <- _.
Defined.

(** X28: When the language model answers with an object that has no action, the
    handler raises the key error to its caller, before anything is called
    or written. *)
Theorem missing_action_raises (env : environment) (backend : ai_backend)
    (command : str) (numbers : option str) (w : world) (content group0 : str) (d : dict) :
  ai_provider env = Some backend ->
  request_backend backend command = Ok content ->
  re_search pat_braces (strip content) = Some group0 ->
  json_loads env group0 = Ok d ->
  dict_get d (py "action") = None ->
  handle_ai_command env command numbers w = responded (Raised (py "'action'")) w.
Proof.
  intros Hback Hreq Hsearch Hload Hget.
  unfold handle_ai_command, parse_ai_command, ask_backend, decode_reply.
  rewrite Hback, Hreq. cbn [mbind outcome_bind]. rewrite Hsearch, Hload.
  cbn [mbind outcome_bind mret outcome_ret try_except]. now rewrite Hget.
Qed.

Lemma missing_action_raises_witness :
  handle_ai_command terse (py "Call 9876543210 now") None
    {| disk := no_file; sent := []; clock := 0 |}
  = responded (Raised (py "'action'")) {| disk := no_file; sent := []; clock := 0 |}.
Proof.
  apply (missing_action_raises terse (openai (fun _ _ => Ok (py "{ }")))
           (py "Call 9876543210 now") None _ (py "{ }") (py "{ }") []);
    reflexivity.
Defined.

(** X29: With no backend, a command without the word call is answered with a
    failure that carries the parsed command; nothing is called and nothing
    is written. *)
Theorem command_not_understood (env : environment) (command : str)
    (numbers : option str) (w : world) :
  ai_provider env = None ->
  contains (py "call") (lower command) = false ->
  handle_ai_command env command numbers w
  = responded
      (Ok (AiResponse.mk false None None None None
             (Some (JStr (py "Could not parse command")))
             (Some (unknown (py "Could not parse command")))))
      w.
Proof.
  intros Hnone Hcall. unfold handle_ai_command, parse_ai_command.
  rewrite Hnone, Hcall.
  change (py "start calling") with (py "start " ++ py "call" ++ py "ing").
  change (py "call all") with ([] ++ py "call" ++ py " all").
  rewrite !(not_contains_middle _ _ _ _ Hcall).
  reflexivity.
Qed.

Lemma command_not_understood_witness :
  handle_ai_command unconfigured (py "hello there") (Some scenario_text)
    {| disk := no_file; sent := []; clock := 0 |}
  = responded
      (Ok (AiResponse.mk false None None None None
             (Some (JStr (py "Could not parse command")))
             (Some (unknown (py "Could not parse command")))))
      {| disk := no_file; sent := []; clock := 0 |}.
Proof.
  apply (command_not_understood unconfigured (py "hello there")); reflexivity.
Defined.

(** ** Error Sanitizer: the footer, and white space *)

Lemma startswith_app_l (p u z : str) :
  startswith p u = true -> startswith p (u ++ z) = true.
Proof.
  revert u. induction p as [|a p IH]; intros u; [reflexivity|].
  destruct u as [|b u]; [discriminate|]. simpl.
  destruct (ascii_dec a b); [apply IH | discriminate].
Qed.

Lemma contains_app_l (p u z : str) :
  p <> [] -> contains p u = true -> contains p (u ++ z) = true.
Proof.
  intros Hp. induction u as [|c t IH]; cbn [contains].
  - destruct p; [congruence | discriminate].
  - change ((c :: t) ++ z) with (c :: (t ++ z)). cbn [contains].
    intros [H | H]%orb_prop.
    + apply (startswith_app_l _ _ z) in H.
      change ((c :: t) ++ z) with (c :: (t ++ z)) in H. now rewrite H.
    + rewrite IH by exact H. apply orb_true_r.
Qed.

Lemma take_drop_while (p : ascii -> bool) (s : str) :
  take_while p s ++ drop_while p s = s.
Proof.
  induction s as [|c t IH]; simpl; [reflexivity|].
  destruct (p c); simpl; [now rewrite IH | reflexivity].
Qed.

(** Stripping keeps a piece of the text, so it brings in no substring. *)
Lemma contains_strip (p s : str) :
  p <> [] -> contains p (strip s) = true -> contains p s = true.
Proof.
  intros Hp H. unfold strip, rstrip, lstrip in H.
  set (l := drop_while is_space s) in *.
  assert (contains p l = true) as Hl.
  { rewrite <- (rev_involutive l), <- (take_drop_while is_space (rev l)), rev_app_distr.
    now apply contains_app_l. }
  unfold l in Hl. rewrite <- drop_run in Hl. now apply contains_drop in Hl.
Qed.

Lemma startswith_snoc (p u : str) (x : ascii) :
  ~ In x p -> startswith p (u ++ [x]) = true -> startswith p u = true.
Proof.
  revert u. induction p as [|a p IH]; intros u Hx; [reflexivity|].
  destruct u as [|b u]; simpl.
  - destruct (ascii_dec a x) as [->|]; [|discriminate]. destruct Hx. now left.
  - destruct (ascii_dec a b); [|discriminate]. apply IH. intros H. apply Hx. now right.
Qed.

Lemma contains_snoc (p u : str) (x : ascii) :
  p <> [] -> ~ In x p -> contains p (u ++ [x]) = true -> contains p u = true.
Proof.
  intros Hp Hx. induction u as [|c t IH].
  - simpl app. cbn [contains]. destruct p as [|a p]; [congruence|].
    cbn [startswith]. destruct (ascii_dec a x) as [->|].
    + destruct Hx. now left.
    + discriminate.
  - change ((c :: t) ++ [x]) with (c :: (t ++ [x])). cbn [contains].
    intros [H | H]%orb_prop.
    + change (c :: (t ++ [x])) with ((c :: t) ++ [x]) in H.
      apply (startswith_snoc p (c :: t) x Hx) in H. now rewrite H.
    + rewrite IH by exact H. apply orb_true_r.
Qed.

Lemma re_sub_all_skipped (m : matcher) (s : str) :
  re_sub_from m [] (length s) s = [].
Proof. induction s as [|c t IH]; simpl; [reflexivity | exact IH]. Qed.

(** Cutting at the footer leaves a beginning of the text without footer. *)
Lemma cut_at_footer (x : str) :
  contains footer (re_sub pat_more_information [] x) = false
  /\ exists z, x = re_sub pat_more_information [] x ++ z.
Proof.
  unfold re_sub. induction x as [|c t [IH1 [z IH2]]].
  - split; [reflexivity | now exists []].
  - cbn [re_sub_from].
    assert (pat_more_information (c :: t)
            = if startswith footer (c :: t) then Some (S (length t)) else None) as Hm
      by reflexivity.
    rewrite !Hm. clear Hm.
    destruct (startswith footer (c :: t)) eqn:Hstart.
    + rewrite re_sub_all_skipped. split; [reflexivity|].
      now exists (c :: t).
    + split.
      * cbn [contains]. rewrite IH1, orb_false_r.
        destruct (startswith footer (c :: re_sub_from pat_more_information [] 0 t)) eqn:H;
          [|reflexivity].
        apply (startswith_app_l _ _ z) in H. simpl app in H. rewrite <- IH2 in H.
        congruence.
      * exists z. simpl. now rewrite <- IH2.
Qed.

Lemma startswith_length (p s : str) :
  startswith p s = true -> length p <= length s.
Proof.
  revert s. induction p as [|a p IH]; intros s; simpl; [lia|].
  destruct s as [|b s]; [discriminate|].
  destruct (ascii_dec a b); [|discriminate]. intros H%IH. simpl. lia.
Qed.

Lemma pat_trailing_url_length (s : str) (n : nat) :
  pat_trailing_url s = Some n ->
  1 <= n /\ n <= length s /\ (drop n s = [] \/ drop n s = [LF]).
Proof.
  unfold pat_trailing_url.
  destruct (startswith (py "http") s) eqn:H1; [|discriminate].
  set (s1 := drop 4 s).
  set (opt := if startswith (py "s") s1 then 1 else 0).
  set (s2 := drop opt s1).
  destruct (startswith (py "://") s2) eqn:H2; [|discriminate].
  set (s3 := drop 3 s2).
  destruct ((1 <=? run (fun c => negb (is_space c)) s3) && at_dollar (drop _ s3)) eqn:H3;
    [|discriminate].
  intros [= <-]. apply andb_prop in H3 as [Hrun Hend]. apply Nat.leb_le in Hrun.
  assert (drop (4 + opt + 3 + run (fun c => negb (is_space c)) s3) s
          = drop (run (fun c => negb (is_space c)) s3) s3) as Hdrop.
  { unfold s3, s2, s1. rewrite !drop_drop. f_equal; lia. }
  change (4 + opt + 3 + run (fun c => negb (is_space c)) s3)
    with (S (S (S (S (opt + 3 + run (fun c => negb (is_space c)) s3))))) in Hdrop.
  rewrite Hdrop. split; [lia|]. split.
  - pose proof (run_le (fun c => negb (is_space c)) s3) as Hle.
    unfold s3, s2, s1 in Hle. rewrite !length_drop in Hle.
    assert (4 <= length s) by apply (startswith_length _ _ H1).
    assert (3 <= length s2) by apply (startswith_length _ _ H2).
    unfold s3, s2, s1 in *. rewrite !length_drop in *. lia.
  - destruct (drop (run (fun c => negb (is_space c)) s3) s3) as [|x [|y r]];
      [now left | | discriminate].
    right. simpl in Hend. apply Nat.eqb_eq in Hend. f_equal.
    unfold code in Hend. rewrite <- (ascii_nat_embedding x), Hend. reflexivity.
Qed.

(** Taking out the address at the end leaves the text before it, and the
    line feed behind it if there was one. *)
Lemma cut_trailing_url (s : str) :
  exists pre mid post,
    s = pre ++ mid ++ post
    /\ re_sub pat_trailing_url [] s = pre ++ post
    /\ (post = [] \/ post = [LF]).
Proof.
  unfold re_sub. induction s as [|c t (pre & mid & post & IH1 & IH2 & IH3)].
  - exists [], [], []. auto.
  - cbn [re_sub_from].
    destruct (pat_trailing_url (c :: t)) as [n|] eqn:Hm.
    + destruct (pat_trailing_url_length _ _ Hm) as (H1 & H2 & H3).
      destruct n as [|k]; [lia|]. simpl app.
      rewrite re_sub_skip by (simpl in H2; lia).
      change (drop k t) with (drop (S k) (c :: t)).
      exists [], (take (S k) (c :: t)), (drop (S k) (c :: t)).
      rewrite take_drop. split; [reflexivity|]. split; [|exact H3].
      destruct H3 as [-> | ->]; reflexivity.
    + exists (c :: pre), mid, post. simpl. rewrite <- IH1, IH2. auto.
Qed.

Lemma contains_cut_trailing_url (p s : str) :
  p <> [] -> ~ In LF p ->
  contains p (re_sub pat_trailing_url [] s) = true -> contains p s = true.
Proof.
  intros Hp Hlf H.
  destruct (cut_trailing_url s) as (pre & mid & post & Hs & Hr & Hpost).
  rewrite Hr in H. rewrite Hs.
  apply contains_app_l; [exact Hp|].
  destruct Hpost as [-> | ->].
  - now rewrite app_nil_r in H.
  - now apply contains_snoc in H.
Qed.

(** X13: When the Twilio preamble is in the text, the result holds no footer. *)
Theorem footer_never_survives (error_text : str) :
  contains twilio_preamble (strip_ansi_codes error_text) = true ->
  contains footer (clean_error_message error_text) = false.
Proof.
  intros Hpre. unfold clean_error_message.
  destruct error_text as [|c t]; [discriminate|].
  rewrite Hpre.
  destruct (split_two_parts twilio_preamble (strip_ansi_codes (c :: t)) [])
    as (p0 & p1 & rest & Hsplit); [discriminate | exact Hpre |].
  unfold split, re_split. rewrite Hsplit.
  set (y2 := re_sub pat_colour_code [] (strip p1)).
  destruct (contains footer (strip (re_sub pat_trailing_url []
                                      (strip (re_sub pat_more_information [] y2)))))
    eqn:H; [|reflexivity].
  apply contains_strip in H; [|discriminate].
  apply contains_cut_trailing_url in H; [|discriminate|].
  - apply contains_strip in H; [|discriminate].
    destruct (cut_at_footer y2) as [Hno _]. congruence.
  - vm_compute. intros Hin. repeat (destruct Hin as [Hin | Hin]; [discriminate|]).
    exact Hin.
Qed.

Lemma footer_never_survives_witness :
  contains footer (clean_error_message verbose_error) = false.
Proof. apply (footer_never_survives verbose_error). reflexivity. Defined.

Lemma re_search_literal (p s : str) (m : matcher) :
  (forall x, startswith p x = true -> exists n, m x = Some n) ->
  contains p s = true -> exists g, re_search m s = Some g.
Proof.
  intros Hm. induction s as [|c t IH]; cbn [contains re_search].
  - rewrite orb_false_r. intros [n ->]%Hm. eauto.
  - intros [H | H]%orb_prop.
    + apply Hm in H as [n ->]. eauto.
    + destruct (m (c :: t)); eauto.
Qed.

Lemma single_spaced_collapse (n : nat) (x : str) :
  length x <= n ->
  single_spaced (re_sub_from pat_whitespace (py " ") 0 x) = true
  /\ match x with
     | c :: _ => is_space c = false ->
                 exists r, re_sub_from pat_whitespace (py " ") 0 x = c :: r
     | [] => True
     end.
Proof.
  revert x. induction n as [|n IH]; intros x Hn.
  - destruct x; [|simpl in Hn; lia]. split; [reflexivity | exact I].
  - destruct x as [|c t]; [split; [reflexivity | exact I]|].
    simpl in Hn. cbn [re_sub_from].
    assert (pat_whitespace (c :: t)
            = if is_space c then Some (S (run is_space t)) else None) as Hm
      by (unfold pat_whitespace, run; cbn [take_while]; destruct (is_space c); reflexivity).
    rewrite !Hm. clear Hm.
    destruct (is_space c) eqn:Hc.
    + rewrite re_sub_skip by apply run_le. rewrite drop_run.
      split; [|discriminate].
      pose proof (drop_while_length is_space t) as Hlen.
      destruct (IH (drop_while is_space t)) as [Hs Hhead]; [lia|].
      change (py " " ++ ?r) with (" "%char :: r).
      cbn [single_spaced]. rewrite Hs, andb_true_r.
      destruct (drop_while is_space t) as [|d t'] eqn:Hd; [reflexivity|].
      assert (is_space d = false) as Hdsp.
      { clear - Hd. induction t as [|a t IHt]; [discriminate|].
        simpl in Hd. destruct (is_space a) eqn:Ha; [auto|]. now injection Hd as <- _. }
      destruct (Hhead Hdsp) as [r ->]. now rewrite Hdsp.
    + destruct (IH t) as [Hs _]; [lia|]. split.
      * cbn [single_spaced]. now rewrite Hc, Hs.
      * intros _. eauto.
Qed.

(** X14: When the text has no Twilio preamble but holds [HTTP Error] and
    [Unable to create record:], the result has single blanks for all white
    space: no line feed or tab is left, and no two blanks in a row. *)
Theorem second_rule_single_spaced (error_text : str) :
  contains twilio_preamble (strip_ansi_codes error_text) = false ->
  contains (py "HTTP Error") (strip_ansi_codes error_text) = true ->
  contains (py "Unable to create record:") (strip_ansi_codes error_text) = true ->
  single_spaced (clean_error_message error_text) = true.
Proof.
  intros Hpre Hhttp Hunable. unfold clean_error_message.
  destruct error_text as [|c t]; [reflexivity|].
  rewrite Hpre, Hhttp, Hunable. cbn [andb].
  destruct (re_search_literal (py "Unable to create record:")
              (strip_ansi_codes (c :: t)) pat_unable_to_create) as [g ->];
    [|exact Hunable|].
  { intros x Hx. unfold pat_unable_to_create. rewrite Hx. eauto. }
  apply (single_spaced_collapse (length (strip g))). lia.
Qed.

Lemma second_rule_single_spaced_witness :
  single_spaced
    (clean_error_message
       (py "HTTP Error 400" ++ LF :: LF :: py "Unable to create record:  The number" ++ LF
        :: py "  is unverified.")) = true.
Proof.
  apply (second_rule_single_spaced
           (py "HTTP Error 400" ++ LF :: LF :: py "Unable to create record:  The number" ++ LF
            :: py "  is unverified.")); reflexivity.
Defined.

(** ** Call Dispatcher: failures *)

(** The pattern of [strip_ansi_codes] takes a control sequence whole. *)
Lemma pat_ansi_escape_control_sequence (params inter : str) (final : ascii) (rest : str) :
  forallb (in_range 48 63) params = true ->
  forallb (in_range 32 47) inter = true ->
  in_range 64 126 final = true ->
  pat_ansi_escape (ESC :: "["%char :: params ++ inter ++ final :: rest)
  = Some (S (2 + length params + length inter)).
Proof.
  intros Hparams Hinter Hfinal.
  assert (in_range 48 63 final = false /\ in_range 32 47 final = false) as [Hf1 Hf2].
  { revert Hfinal. destruct final as [[] [] [] [] [] [] [] []]; vm_compute; auto. }
  assert (run (in_range 48 63) (params ++ inter ++ final :: rest) = length params) as Hrun1.
  { destruct inter as [|i inter'].
    - now apply run_app_stop.
    - simpl app. apply run_app_stop; [exact Hparams|].
      simpl in Hinter. apply andb_prop in Hinter as [Hi _].
      revert Hi. destruct i as [[] [] [] [] [] [] [] []]; vm_compute; auto. }
  assert (run (in_range 32 47) (inter ++ final :: rest) = length inter) as Hrun2
    by now apply run_app_stop.
  unfold pat_ansi_escape.
  change (negb (is_char 27 ESC)) with false. cbv iota.
  change (in_range 64 90 "[" || in_range 92 95 "[") with false. cbv iota.
  change (is_char 91 "[") with true. cbv iota.
  rewrite Hrun1, drop_app_length, Hrun2.
  rewrite <- drop_drop, drop_app_length, drop_app_length, Hfinal.
  f_equal. lia.
Qed.

(** The cleaning block of the dispatcher on a text with the preamble, and
    on one without. *)
Lemma failure_core_with_preamble (e : str) :
  contains twilio_preamble (strip_ansi_codes e) = true ->
  failure_core e = clean_error_message e.
Proof.
  intros Hpre. unfold failure_core, clean_error_message.
  destruct e as [|c t]; [discriminate Hpre|].
  rewrite Hpre.
  destruct (split_two_parts twilio_preamble (strip_ansi_codes (c :: t)) [])
    as (p0 & p1 & rest & Hsplit); [discriminate | exact Hpre |].
  unfold split, re_split. rewrite Hsplit. reflexivity.
Qed.

Lemma failure_core_without_preamble (e : str) :
  contains twilio_preamble (strip_ansi_codes e) = false ->
  failure_core e = strip_ansi_codes e.
Proof. intros Hpre. unfold failure_core. now rewrite Hpre. Qed.

Lemma clean_error_message_without_rule (e : str) :
  e <> [] ->
  contains twilio_preamble (strip_ansi_codes e) = false ->
  contains (py "HTTP Error") (strip_ansi_codes e)
  && contains (py "Unable to create record:") (strip_ansi_codes e) = false ->
  clean_error_message e = strip_ansi_codes e.
Proof.
  intros Hne Hpre Hrule. unfold clean_error_message.
  destruct e as [|c t]; [congruence|]. now rewrite Hpre, Hrule.
Qed.

(** Guidance comes behind the message, and only for a message that holds
    the word verified. *)
Lemma add_guidance_cases (error_msg : str) :
  exists guidance,
    add_guidance error_msg = error_msg ++ guidance
    /\ (contains (py "verified") (lower error_msg) = false <-> guidance = []).
Proof.
  unfold add_guidance. rewrite guidance_test.
  destruct (contains (py "verified") (lower error_msg)).
  - destruct (contains (py "source phone number") (lower error_msg)).
    + eexists. split; [reflexivity | split; discriminate].
    + destruct (re_search pat_phone error_msg).
      * eexists. split; [reflexivity | split; discriminate].
      * eexists. split; [reflexivity | split; discriminate].
  - exists []. split; [now rewrite app_nil_r | split; reflexivity].
Qed.

(** C6, as the code has it: without a client the dispatcher answers with the
    configuration error and sends nothing; when the provider's call raises,
    it answers with a failure that names the number, and whose error is the
    text of the exception, cleaned by the dispatcher's own block, with
    guidance behind it exactly when the cleaned text holds the word
    verified; in every case it returns a result.  The cleaned text is the text without
    its control sequences when the Twilio preamble is not in it; it is the
    Error Sanitizer's result when the preamble is in it, and also when the
    text does not hold both [HTTP Error] and [Unable to create record:]. *)
Theorem make_twilio_call_failure (env : environment) (phone_number : str) :
  (twilio_client env = None ->
   make_twilio_call env phone_number
   = (Ok (CallResult.mk false None None None
            (Some (py "Twilio credentials not configured"))), []))
  /\ (forall client e,
        twilio_client env = Some client ->
        calls_create client phone_number (TWILIO_PHONE_NUMBER env) (call_twiml env)
          = Raised e ->
        exists guidance,
          make_twilio_call env phone_number
          = (Ok (CallResult.mk false None None (Some phone_number)
                   (Some (failure_core e ++ guidance))), [phone_number])
          /\ (contains (py "verified") (lower (failure_core e)) = false <->
              guidance = []))
  /\ (exists result,
        fst (make_twilio_call env phone_number) = Ok result
        /\ (CallResult.success result = false -> exists error,
              CallResult.error result = Some error))
  /\ (forall e,
        (contains twilio_preamble (strip_ansi_codes e) = false ->
         failure_core e = strip_ansi_codes e)
        /\ (contains twilio_preamble (strip_ansi_codes e) = true ->
            failure_core e = clean_error_message e)
        /\ (e <> [] ->
            contains (py "HTTP Error") (strip_ansi_codes e)
            && contains (py "Unable to create record:") (strip_ansi_codes e) = false ->
            failure_core e = clean_error_message e))
  /\ (forall params inter final rest,
        forallb (in_range 48 63) params = true ->
        forallb (in_range 32 47) inter = true ->
        in_range 64 126 final = true ->
        failure_core (ESC :: "["%char :: params ++ inter ++ final :: rest)
        = failure_core rest).
Proof.
  split; [|split; [|split; [|split]]].
  - intros Hclient. unfold make_twilio_call. now rewrite Hclient.
  - intros client e Hclient Hraise. unfold make_twilio_call. rewrite Hclient, Hraise.
    cbn [mbind outcome_bind try_except].
    destruct (add_guidance_cases (failure_core e)) as (guidance & Hg & Hnone).
    exists guidance. unfold describe_failure. rewrite Hg. split; [reflexivity | exact Hnone].
  - apply make_twilio_call_returns.
  - intros e. split; [|split].
    + apply failure_core_without_preamble.
    + apply failure_core_with_preamble.
    + intros Hne Hrule.
      destruct (contains twilio_preamble (strip_ansi_codes e)) eqn:Hpre.
      * now apply failure_core_with_preamble.
      * rewrite failure_core_without_preamble by exact Hpre.
        symmetry. now apply clean_error_message_without_rule.
  - intros params inter final rest Hparams Hinter Hfinal.
    assert (strip_ansi_codes (ESC :: "["%char :: params ++ inter ++ final :: rest)
            = strip_ansi_codes rest) as Hstrip.
    { unfold strip_ansi_codes.
      rewrite (re_sub_match _ _ _ _ _
                 (pat_ansi_escape_control_sequence params inter final rest
                    Hparams Hinter Hfinal))
        by (simpl; rewrite !length_app; simpl; lia).
      simpl app at 1. f_equal.
      change (drop (2 + length params + length inter)
                ("["%char :: params ++ inter ++ final :: rest))
        with (drop (S (length params + length inter)) (params ++ inter ++ final :: rest)).
      replace (params ++ inter ++ final :: rest)
        with ((params ++ inter ++ [final]) ++ rest)
        by (rewrite <- !app_assoc; reflexivity).
      replace (S (length params + length inter))
        with (length (params ++ inter ++ [final]))
        by (rewrite !length_app; simpl; lia).
      apply drop_app_length. }
    unfold failure_core. now rewrite Hstrip.
Qed.

Lemma make_twilio_call_failure_witness :
  make_twilio_call unconfigured (py "+14567890123")
  = (Ok (CallResult.mk false None None None
           (Some (py "Twilio credentials not configured"))), [])
  /\ failure_core refusal_text = py "Unable to create record: The number is unverified."
  /\ (exists guidance,
        make_twilio_call refusing (py "+14567890123")
        = (Ok (CallResult.mk false None None (Some (py "+14567890123"))
                 (Some (failure_core refusal_text ++ guidance))),
           [py "+14567890123"])
        /\ (contains (py "verified") (lower (failure_core refusal_text)) = false <->
            guidance = []))
  /\ failure_core refusal_text = clean_error_message refusal_text
  /\ failure_core (ESC :: "["%char :: py "1;31" ++ [] ++ "m"%char :: refusal_text)
     = failure_core refusal_text.
Proof.
  split; [|split; [|split; [|split]]].
  - apply (proj1 (make_twilio_call_failure unconfigured (py "+14567890123"))).
    reflexivity.
  - reflexivity.
  - apply (proj1 (proj2 (make_twilio_call_failure refusing (py "+14567890123")))
             refusing_client refusal_text).
    + reflexivity.
    + reflexivity.
  - apply (proj1 (proj2 (proj1 (proj2 (proj2 (proj2
             (make_twilio_call_failure refusing (py "+14567890123"))))) refusal_text))).
    reflexivity.
  - apply (proj2 (proj2 (proj2 (proj2
             (make_twilio_call_failure refusing (py "+14567890123")))))
             (py "1;31") [] "m"%char refusal_text); reflexivity.
Defined.

(** C6, as the specification words it, fails: the error of the result need not be
    what the Error Sanitizer makes of the text.  A provider error with
    [HTTP Error] and [Unable to create record:] but without the Twilio
    preamble is handed on as it came, line feeds and all, where the Error
    Sanitizer cuts it at [Unable to create record:] and makes single blanks
    of its white space; no guidance behind the sanitized text gives the
    error of the result. *)
Lemma make_twilio_call_unsanitized :
  clean_error_message http_error_text
  = py "Unable to create record: The number is invalid."
  /\ make_twilio_call rejecting (py "+14567890123")
     = (Ok (CallResult.mk false None None (Some (py "+14567890123"))
              (Some http_error_text)), [py "+14567890123"])
  /\ forall guidance, http_error_text <> clean_error_message http_error_text ++ guidance.
Proof.
  split; [vm_compute; reflexivity|].
  split; [vm_compute; reflexivity|].
  intros guidance H.
  assert (clean_error_message http_error_text
          = py "Unable to create record: The number is invalid.") as E
    by (vm_compute; reflexivity).
  rewrite E in H. discriminate H.
Qed.
